(** * Newworld: the facility extraction pipeline, shallow embedding

    Python [str] values are modelled as lists of Unicode code points
    ([list Z]); [bytes] values as lists of byte values ([list Z], each in
    0..255). A [bytes.decode("latin1")] is therefore the identity on the
    list. Python dictionaries are stdpp [gmap]s. Exceptions are modelled
    by [option] ([None] = the call raises). *)

From Stdlib Require Import ZArith Lia.
From Stdlib Require Import Strings.String Strings.Ascii.
From stdpp Require Import base list gmap.

Open Scope Z_scope.

Abbreviation pystr := (list Z).

(** ** Character classes of Python's [re] module (Unicode 14.0, Python 3.11) *)

(** First code point of every block of ten Unicode [Nd] digits; [\d] in a
    [str] pattern matches exactly these 66 blocks, and [int()] reads the
    digit value as the offset in its block. *)
Definition nd_starts : list Z :=
  [0x30; 0x660; 0x6f0; 0x7c0; 0x966; 0x9e6; 0xa66; 0xae6; 0xb66; 0xbe6;
   0xc66; 0xce6; 0xd66; 0xde6; 0xe50; 0xed0; 0xf20; 0x1040; 0x1090; 0x17e0;
   0x1810; 0x1946; 0x19d0; 0x1a80; 0x1a90; 0x1b50; 0x1bb0; 0x1c40; 0x1c50;
   0xa620; 0xa8d0; 0xa900; 0xa9d0; 0xa9f0; 0xaa50; 0xabf0; 0xff10; 0x104a0;
   0x10d30; 0x11066; 0x110f0; 0x11136; 0x111d0; 0x112f0; 0x11450; 0x114d0;
   0x11650; 0x116c0; 0x11730; 0x118e0; 0x11950; 0x11c50; 0x11d50; 0x11da0;
   0x16a60; 0x16ac0; 0x16b50; 0x1d7ce; 0x1d7d8; 0x1d7e2; 0x1d7ec; 0x1d7f6;
   0x1e140; 0x1e2f0; 0x1e950; 0x1fbf0].

Definition in_block (c b : Z) : bool := (b <=? c) && (c <? b + 10).

(** [\d] *)
Definition is_digit (c : Z) : bool := existsb (in_block c) nd_starts.

(** Decimal value of a [\d] character, as [int()] reads it. *)
Definition digit_value (c : Z) : Z :=
  match find (in_block c) nd_starts with
  | Some b => c - b
  | None => 0
  end.

(** [int(s)] for a string of [\d] characters. *)
Definition py_int (ds : pystr) : Z :=
  fold_left (fun acc c => acc * 10 + digit_value c) ds 0.

(** Decimal digits of a non-negative integer, least significant first. *)
Fixpoint digits_rev (fuel : nat) (n : Z) : pystr :=
  match fuel with
  | O => []
  | S f => if n <? 10 then [48 + n] else (48 + n mod 10) :: digits_rev f (n / 10)
  end.

(** [str(n)] for [n >= 0]. *)
Definition py_str (n : Z) : pystr := rev (digits_rev (S (Z.to_nat n)) n).

(** [f"{n:02d}"] for [n >= 0]. *)
Definition pad2 (n : Z) : pystr :=
  let s := py_str n in repeat 48 (2 - length s) ++ s.

(** [str.isspace()], which is also what [\s] matches in a [str] pattern. *)
Definition is_space (c : Z) : bool :=
  ((9 <=? c) && (c <=? 13)) || ((0x1c <=? c) && (c <=? 0x20)) ||
  (c =? 0x85) || (c =? 0xa0) || (c =? 0x1680) ||
  ((0x2000 <=? c) && (c <=? 0x200a)) || (c =? 0x2028) || (c =? 0x2029) ||
  (c =? 0x202f) || (c =? 0x205f) || (c =? 0x3000).

(** ASCII text as code points, for the ASCII literals of the source. *)
Fixpoint asc (s : string) : pystr :=
  match s with
  | EmptyString => []
  | String a s' => Z.of_nat (nat_of_ascii a) :: asc s'
  end.

(** ** String operations *)

Fixpoint prefixb (p s : pystr) : bool :=
  match p, s with
  | [], _ => true
  | x :: p', y :: s' => (x =? y) && prefixb p' s'
  | _ :: _, [] => false
  end.

(** [s.startswith(p)] *)
Definition startswith (s p : pystr) : bool := prefixb p s.

(** [p in s] *)
Fixpoint contains (s p : pystr) : bool :=
  prefixb p s || match s with [] => false | _ :: s' => contains s' p end.

(** [s.find(p)]: index of the first occurrence, or -1. *)
Fixpoint find_idx (s p : pystr) : option nat :=
  if prefixb p s then Some 0%nat
  else match s with [] => None | _ :: s' => option_map S (find_idx s' p) end.

Definition py_find (s p : pystr) : Z :=
  match find_idx s p with Some i => Z.of_nat i | None => -1 end.

Fixpoint lstrip_ws (s : pystr) : pystr :=
  match s with
  | c :: s' => if is_space c then lstrip_ws s' else s
  | [] => []
  end.

(** [s.strip()] *)
Definition strip (s : pystr) : pystr := rev (lstrip_ws (rev (lstrip_ws s))).

(** Truthiness of a Python list: [bool(xs)] is [negb (is_nil xs)]. *)
Definition is_nil {A} (xs : list A) : bool :=
  match xs with [] => true | _ => false end.

(** [s.removeprefix(p)] *)
Definition removeprefix (s p : pystr) : pystr :=
  if prefixb p s then drop (length p) s else s.

(** ** Literals of the source *)

Definition NEWLINE : Z := 10.
(** "分局" *)
Definition FENJU : pystr := [0x5206; 0x5c40].
(** "臺南市" *)
Definition TAINAN : pystr := [0x81fa; 0x5357; 0x5e02].
(** "新市區" *)
Definition XINSHI : pystr := [0x65b0; 0x5e02; 0x5340].
(** "里" *)
Definition LI : Z := 0x91cc.
(** "善化分局" *)
Definition SHANHUA : pystr := [0x5584; 0x5316; 0x5206; 0x5c40].

(** ** Regular-expression scanning shared by the scripts *)

(** [re.finditer] for a pattern that never matches the empty string: [m]
    tries the pattern at the head of the remaining text and returns the
    match data and the match length; scanning resumes after a match, or
    one character further when there is none. Each result carries the
    start and end offsets of its match. *)
Fixpoint finditer_aux {A} (m : pystr -> option (A * nat)) (fuel pos : nat) (s : pystr)
    : list (A * nat * nat) :=
  match fuel with
  | O => []
  | S fuel' =>
      match s with
      | [] => []
      | _ :: s' =>
          match m s with
          | Some (a, n) => (a, pos, pos + n)%nat :: finditer_aux m fuel' (pos + n) (drop n s)
          | None => finditer_aux m fuel' (S pos) s'
          end
      end
  end.

Definition finditer {A} (m : pystr -> option (A * nat)) (s : pystr) : list (A * nat * nat) :=
  finditer_aux m (length s) 0%nat s.

(** [re.findall] for a pattern with groups: only the match data. *)
Definition findall {A} (m : pystr -> option (A * nat)) (s : pystr) : list A :=
  map (fun x => fst (fst x)) (finditer m s).

(** A literal at the head of the text; returns the rest. *)
Definition lit (l s : pystr) : option pystr :=
  if prefixb l s then Some (drop (length l) s) else None.

(** [\s+], greedy; returns the rest. *)
Definition spaces1 (s : pystr) : option pystr :=
  match s with
  | c :: _ => if is_space c then Some (lstrip_ws s) else None
  | [] => None
  end.

(** [[0-9A-F]] *)
Definition hexval_upper (c : Z) : option Z :=
  if (48 <=? c) && (c <=? 57) then Some (c - 48)
  else if (65 <=? c) && (c <=? 70) then Some (c - 55)
  else None.

(** [([0-9A-F]{4})] followed by [int(group, 16)]. *)
Definition hex4u (s : pystr) : option (Z * pystr) :=
  match s with
  | a :: b :: c :: d :: r =>
      va ← hexval_upper a; vb ← hexval_upper b; vc ← hexval_upper c; vd ← hexval_upper d;
      Some (((va * 16 + vb) * 16 + vc) * 16 + vd, r)
  | _ => None
  end.

Definition consumed (s r : pystr) : nat := (length s - length r)%nat.

(** The maximal run of [\d] characters at the head. *)
Fixpoint take_digits (s : pystr) : pystr :=
  match s with
  | c :: s' => if is_digit c then c :: take_digits s' else []
  | [] => []
  end.

(** [<([0-9A-F]{4})>] *)
Definition m_hex4_angle (s : pystr) : option (Z * nat) :=
  r ← lit (asc "<") s; '(v, r) ← hex4u r; r ← lit (asc ">") r;
  Some (v, consumed s r).


(** [bytes.strip(chars)] *)
Fixpoint lstrip_chars (cs s : pystr) : pystr :=
  match s with
  | c :: s' => if existsb (Z.eqb c) cs then lstrip_chars cs s' else s
  | [] => []
  end.

Definition strip_chars (cs s : pystr) : pystr :=
  rev (lstrip_chars cs (rev (lstrip_chars cs s))).

Definition CRLF : pystr := [13; 10].

(** [str.replace(old, new)], left to right, non-overlapping, [old] non-empty. *)
Fixpoint replace_fuel (fuel : nat) (old new s : pystr) : pystr :=
  match fuel with
  | O => s
  | S fuel' =>
      match s with
      | [] => []
      | c :: s' =>
          if prefixb old s then new ++ replace_fuel fuel' old new (drop (length old) s)
          else c :: replace_fuel fuel' old new s'
      end
  end.

Definition replace (s old new : pystr) : pystr := replace_fuel (length s) old new s.

(** [s.split(sep)], [sep] non-empty. *)
Fixpoint split_fuel (fuel : nat) (sep s cur : pystr) : list pystr :=
  match fuel with
  | O => [cur ++ s]
  | S fuel' =>
      match s with
      | [] => [cur]
      | c :: s' =>
          if prefixb sep s then cur :: split_fuel fuel' sep (drop (length sep) s) []
          else split_fuel fuel' sep s' (cur ++ [c])
      end
  end.

Definition py_split (s sep : pystr) : list pystr := split_fuel (length s) sep s [].

(** ** Deflate streams: [zlib.decompress] *)

(** The segments between [stream\r?\n] and the next [endstream]: for every
    match of [re.finditer(rb"stream\r?\n", raw_pdf)], the bytes
    [raw_pdf[match.end():raw_pdf.find(b"endstream", match.end())]], or
    [None] where no [endstream] follows (the loops [continue] there). *)
Definition m_stream_kw (s : pystr) : option (unit * nat) :=
  if prefixb (asc "stream" ++ [13; 10]) s then Some (tt, 8%nat)
  else if prefixb (asc "stream" ++ [10]) s then Some (tt, 7%nat)
  else None.

Definition stream_segments (raw_pdf : pystr) : list (option pystr) :=
  map (fun x : unit * nat * nat =>
         let start := snd x in
         match find_idx (drop start raw_pdf) (asc "endstream") with
         | Some len => Some (take len (drop start raw_pdf))
         | None => None
         end)
      (finditer m_stream_kw raw_pdf).

(** A model of [zlib.decompress] on its simplest inputs: a zlib header
    whose check is valid and a single final stored deflate block with its
    Adler-32 trailer (trailing bytes are ignored, as [zlib.decompress]
    does). Every other input is refused, so on the inputs where it
    answers it agrees with [zlib.decompress]; a header that fails the
    check is refused by both. *)
Definition adler32 (data : pystr) : Z :=
  let '(a, b) := fold_left (fun ab x => let '(a, b) := ab in
                              ((a + x) mod 65521, (b + (a + x) mod 65521) mod 65521))
                           data (1, 0) in
  b * 65536 + a.

Definition be32 (s : pystr) : option Z :=
  match s with
  | a :: b :: c :: d :: _ => Some (((a * 256 + b) * 256 + c) * 256 + d)
  | _ => None
  end.

Definition zlib_stored (s : pystr) : option pystr :=
  match s with
  | cmf :: flg :: bh :: l0 :: l1 :: n0 :: n1 :: rest =>
      if (Z.land cmf 15 =? 8) && ((cmf * 256 + flg) mod 31 =? 0) && negb (Z.testbit flg 5)
         && (Z.land bh 7 =? 1) && (l0 + 256 * l1 + n0 + 256 * n1 =? 65535)
      then
        let len := Z.to_nat (l0 + 256 * l1) in
        if Nat.leb len (length rest) then
          match be32 (drop len rest) with
          | Some chk => if chk =? adler32 (take len rest) then Some (take len rest) else None
          | None => None
          end
        else None
      else None
  | _ => None
  end.

(** ** scripts/extract_facilities.py : parse_facilities *)

Module ExtractFacilities.

(** *** load_cmap *)

(** Python's normalisation of a slice or search bound [i] on a sequence
    of length [n]. *)
Definition py_index (i : Z) (n : nat) : nat :=
  if i <? 0 then Z.to_nat (Z.max 0 (i + Z.of_nat n)) else Nat.min (Z.to_nat i) n.

(** [s[a:b]] *)
Definition py_slice (s : pystr) (a b : Z) : pystr :=
  let a' := py_index a (length s) in
  let b' := py_index b (length s) in
  take (b' - a') (drop a' s).

(** [s.find(sub, start)] *)
Definition py_find_from (s sub : pystr) (start : Z) : Z :=
  let st := py_index start (length s) in
  match find_idx (drop st s) sub with
  | Some k => Z.of_nat (st + k)
  | None => -1
  end.

(** Index of the last occurrence of [p] in [s]. *)
Fixpoint rfind_idx (s p : pystr) : option nat :=
  match s with
  | [] => if prefixb p [] then Some 0%nat else None
  | _ :: s' =>
      match rfind_idx s' p with
      | Some k => Some (S k)
      | None => if prefixb p s then Some 0%nat else None
      end
  end.

(** [s.rfind(sub, start, end)] *)
Definition py_rfind_range (s sub : pystr) (start end_ : Z) : Z :=
  let a := py_index start (length s) in
  let b := py_index end_ (length s) in
  match rfind_idx (take (b - a) (drop a s)) sub with
  | Some k => Z.of_nat (a + k)
  | None => -1
  end.

(** [s.split(sep, 1)[1]]; [None]: the index raises [IndexError]. *)
Definition split1_second (s sep : pystr) : option pystr :=
  match find_idx s sep with
  | Some k => Some (drop (k + length sep) s)
  | None => None
  end.

(** [s.split(sep)[0]] *)
Definition split_first (s sep : pystr) : pystr :=
  match find_idx s sep with
  | Some k => take k s
  | None => s
  end.

Definition CMAPNAME : pystr := asc "/CMapName /Adobe-Identity-UCS".

(** [(\d+)\s+<kw>(.*?)<endkw>] with [re.S]: group 2. *)
Definition m_block (kw endkw s : pystr) : option (pystr * nat) :=
  match s with
  | c :: _ =>
      if is_digit c then
        r ← spaces1 (drop (length (take_digits s)) s);
        r ← lit kw r;
        k ← find_idx r endkw;
        Some (take k r, consumed s (drop (k + length endkw) r))
      else None
  | [] => None
  end.

(** [<([0-9A-F]{4})>\s+<([0-9A-F]{4})>] *)
Definition m_pair (s : pystr) : option ((Z * Z) * nat) :=
  r ← lit (asc "<") s; '(v1, r) ← hex4u r; r ← lit (asc ">") r; r ← spaces1 r;
  r ← lit (asc "<") r; '(v2, r) ← hex4u r; r ← lit (asc ">") r;
  Some ((v1, v2), consumed s r).

(** [<([0-9A-F]{4})>\s+<([0-9A-F]{4})>\s+<([0-9A-F]{4})>] *)
Definition m_triple (s : pystr) : option ((Z * Z * Z) * nat) :=
  r ← lit (asc "<") s; '(v1, r) ← hex4u r; r ← lit (asc ">") r; r ← spaces1 r;
  r ← lit (asc "<") r; '(v2, r) ← hex4u r; r ← lit (asc ">") r; r ← spaces1 r;
  r ← lit (asc "<") r; '(v3, r) ← hex4u r; r ← lit (asc ">") r;
  Some ((v1, v2, v3), consumed s r).

(** [<([0-9A-F]{4})>\s+<([0-9A-F]{4})>\s+\[(.*?)\]] with [re.S] *)
Definition m_array (s : pystr) : option ((Z * Z * pystr) * nat) :=
  r ← lit (asc "<") s; '(v1, r) ← hex4u r; r ← lit (asc ">") r; r ← spaces1 r;
  r ← lit (asc "<") r; '(v2, r) ← hex4u r; r ← lit (asc ">") r; r ← spaces1 r;
  r ← lit (asc "[") r; k ← find_idx r (asc "]");
  Some ((v1, v2, take k r), consumed s (drop (S k) r)).

(** [range(start, end + 1)] as offsets from [start]. *)
Definition range_offsets (start end_ : Z) : list nat :=
  seq 0 (Z.to_nat (end_ - start + 1)).

(** [for offset, code in enumerate(range(start, end + 1)): mapping[code] = base + offset] *)
Definition set_range (mapping : gmap Z Z) (start end_ base : Z) : gmap Z Z :=
  fold_left (fun m offset => <[start + Z.of_nat offset := base + Z.of_nat offset]> m)
    (range_offsets start end_) mapping.

(** The same loop with [if offset < len(entries): mapping[code] = entries[offset]]. *)
Definition set_array (mapping : gmap Z Z) (start end_ : Z) (entries : list Z) : gmap Z Z :=
  fold_left (fun m offset =>
               match entries !! offset with
               | Some v => <[start + Z.of_nat offset := v]> m
               | None => m
               end)
    (range_offsets start end_) mapping.

Definition bfchar_body (mapping : gmap Z Z) (body : pystr) : gmap Z Z :=
  fold_left (fun m (sd : Z * Z) => <[fst sd := snd sd]> m) (findall m_pair body) mapping.

Definition bfrange_body (mapping : gmap Z Z) (body : pystr) : gmap Z Z :=
  let m := fold_left (fun m (t : Z * Z * Z) => let '(a, b, c) := t in set_range m a b c)
             (findall m_triple body) mapping in
  fold_left (fun m (t : Z * Z * pystr) =>
               let '(a, b, arr) := t in set_array m a b (findall m_hex4_angle arr))
    (findall m_array body) m.

(** [load_cmap(raw_pdf)]; [None]: it raises (the [split(...)[1]]). *)
Definition load_cmap (raw_pdf : pystr) : option (gmap Z Z) :=
  let pos := py_find raw_pdf CMAPNAME in
  let stream_start := py_rfind_range raw_pdf (asc "stream") 0 pos in
  let stream_end := py_find_from raw_pdf (asc "endstream") stream_start in
  let content := py_slice raw_pdf stream_start stream_end in
  content ← split1_second content (asc "stream");
  let content := split_first content (asc "endstream") in
  let mapping := fold_left bfchar_body
                   (findall (m_block (asc "beginbfchar") (asc "endbfchar")) content) ∅ in
  Some (fold_left bfrange_body
          (findall (m_block (asc "beginbfrange") (asc "endbfrange")) content) mapping).

(** *** decode_hex_string, extract_stream_text, extract_lines *)

(** [chr(v)]; [None]: [ValueError]. *)
Definition py_chr (v : Z) : option Z :=
  if (0 <=? v) && (v <? 0x110000) then Some v else None.

(** [[0-9A-Fa-f]] *)
Definition hexval (c : Z) : option Z :=
  match hexval_upper c with
  | Some v => Some v
  | None => if (97 <=? c) && (c <=? 102) then Some (c - 87) else None
  end.

(** [int(s, 16)] on a string of hexadecimal digits (the only strings its
    callers pass, all taken from a [[0-9A-F]+] group); a string with
    another character, or an empty one, raises. *)
Definition py_int16 (s : pystr) : option Z :=
  if is_nil s then None else
  vs ← mapM hexval s; Some (fold_left (fun acc v => acc * 16 + v) vs 0).

(** [hex_string[i : i + 4] for i in range(0, len(hex_string), 4)] *)
Fixpoint chunks4_fuel (fuel : nat) (s : pystr) : list pystr :=
  match fuel with
  | O => []
  | S f => match s with [] => [] | _ => take 4 s :: chunks4_fuel f (drop 4 s) end
  end.

Definition chunks4 (s : pystr) : list pystr := chunks4_fuel (length s) s.

(** [decode_hex_string(hex_string, cmap)] *)
Definition decode_hex_string (hex_string : pystr) (cmap : gmap Z Z) : option pystr :=
  mapM (fun chunk => code ← py_int16 chunk; py_chr (default 0xFFFD (cmap !! code)))
    (chunks4 hex_string).

(** [\s] of a [bytes] pattern: ASCII whitespace. *)
Definition is_space_ascii (c : Z) : bool :=
  ((9 <=? c) && (c <=? 13)) || (c =? 32).

Fixpoint drop_while (f : Z -> bool) (s : pystr) : pystr :=
  match s with
  | c :: s' => if f c then drop_while f s' else s
  | [] => []
  end.

Definition spaces1_ascii (s : pystr) : option pystr :=
  match s with
  | c :: _ => if is_space_ascii c then Some (drop_while is_space_ascii s) else None
  | [] => None
  end.

(** [rb"\[([^\]]+)\]\s+TJ"]: group 1. *)
Definition m_tj (s : pystr) : option (pystr * nat) :=
  r ← lit (asc "[") s;
  k ← find_idx r (asc "]");
  if Nat.eqb k 0 then None else
  r' ← spaces1_ascii (drop (S k) r);
  r' ← lit (asc "TJ") r';
  Some (take k r, consumed s r').

Definition is_hex_upper (c : Z) : bool :=
  match hexval_upper c with Some _ => true | None => false end.

Fixpoint take_hex (s : pystr) : pystr :=
  match s with
  | c :: s' => if is_hex_upper c then c :: take_hex s' else []
  | [] => []
  end.

(** [<([0-9A-F]+)>]: group 1. *)
Definition m_hex_plus (s : pystr) : option (pystr * nat) :=
  r ← lit (asc "<") s;
  let h := take_hex r in
  if is_nil h then None else
  r ← lit (asc ">") (drop (length h) r);
  Some (h, consumed s r).

(** [str.splitlines()] *)
Definition is_line_break (c : Z) : bool :=
  ((10 <=? c) && (c <=? 13)) || ((0x1c <=? c) && (c <=? 0x1e)) ||
  (c =? 0x85) || (c =? 0x2028) || (c =? 0x2029).

Fixpoint splitlines_aux (s cur : pystr) : list pystr :=
  match s with
  | [] => if is_nil cur then [] else [cur]
  | c :: s' =>
      if c =? 13 then
        match s' with
        | d :: s'' => if d =? 10 then cur :: splitlines_aux s'' [] else cur :: splitlines_aux s' []
        | [] => [cur]
        end
      else if is_line_break c then cur :: splitlines_aux s' []
      else splitlines_aux s' (cur ++ [c])
  end.

Definition splitlines (s : pystr) : list pystr := splitlines_aux s [].

(** [sep.join(xs)] *)
Fixpoint join (sep : pystr) (xs : list pystr) : pystr :=
  match xs with
  | [] => []
  | [x] => x
  | x :: xs' => x ++ sep ++ join sep xs'
  end.

(** The boilerplate literals of [should_skip]. *)
Definition SKIP_PATTERNS : list pystr :=
  [ [0x5340; 0x5225; 0x91cc; 0x5225; 0x540d; 0x7a31; 0x5730; 0x5740]  (* 區別里別名稱地址 *)
  ; [0x5bb9; 0x91cf; 0x28; 0x53ef; 0x5bb9]                          (* 容量(可容 *)
  ; [0x8f44; 0x7ba1; 0x5206; 0x5c40]                                (* 轄管分局 *)
  ; [0x9632; 0x7a7a; 0x758f; 0x6563; 0x907f; 0x96e3; 0x8a2d; 0x65bd; 0x4e00; 0x89bd; 0x8868]
                                                                    (* 防空疏散避難設施一覽表 *)
  ; [0x66f4; 0x65b0]                                                (* 更新 *)
  ; [0x7b2c; 0x31; 0x9801]                                          (* 第1頁 *)
  ; [0x7b2c; 0x32; 0x9801]                                          (* 第2頁 *)
  ].

(** [should_skip(line)]: [any(pattern in line for pattern in (...))] *)
Definition should_skip (line : pystr) : bool :=
  existsb (fun pattern => contains line pattern) SKIP_PATTERNS.

Section WithZlib.
Variable zlib_decompress : pystr -> option pystr.

(** [extract_stream_text(data, cmap)]: the yielded runs; [None]: it raises
    (a failing [zlib.decompress] is not caught here). *)
Definition extract_stream_text (data : pystr) (cmap : gmap Z Z) : option (list pystr) :=
  data ← (if prefixb [0x78; 0x9c] data then zlib_decompress data else Some data);
  mapM (fun array =>
          let parts := findall m_hex_plus array in
          texts ← mapM (fun part => decode_hex_string part cmap) parts;
          Some (concat texts))
    (findall m_tj data).

(** [bytes.rstrip(b"\r\n")] *)
Definition rstrip_crlf (s : pystr) : pystr := rev (lstrip_chars CRLF (rev s)).

(** The text blocks of [extract_lines]. *)
Fixpoint text_blocks (segs : list (option pystr)) (cmap : gmap Z Z) : option (list pystr) :=
  match segs with
  | [] => Some []
  | None :: segs' => text_blocks segs' cmap
  | Some seg :: segs' =>
      runs ← extract_stream_text (rstrip_crlf seg) cmap;
      let block_text := join [NEWLINE] runs in
      rest ← text_blocks segs' cmap;
      Some (if is_nil (strip block_text) then rest else block_text :: rest)
  end.

(** [extract_lines(raw_pdf, cmap)] *)
Definition extract_lines (raw_pdf : pystr) (cmap : gmap Z Z) : option (list pystr) :=
  blocks ← text_blocks (stream_segments raw_pdf) cmap;
  let lines := concat (map (fun block =>
                 map strip (filter (fun line => negb (is_nil (strip line))) (splitlines block)))
                 blocks) in
  Some (filter (fun line => negb (should_skip line)) lines).

End WithZlib.

(** Greedy [\d+] at the start of a string with backtracking: the
    candidate (digits, rest) splits, longest first. *)
Fixpoint digit_splits (s : pystr) : list (pystr * pystr) :=
  match s with
  | c :: t =>
      if is_digit c
      then map (fun dr => (c :: fst dr, snd dr)) (digit_splits t) ++ [([c], t)]
      else []
  | [] => []
  end.

(** The tail [(.+分局)$] of the pattern on the rest of the line: [.]
    matches anything but a newline; [$] matches at the end or before a
    final newline. Returns group 2. *)
Definition branch_tail (r : pystr) : option pystr :=
  let r' := match rev r with
            | c :: t => if c =? NEWLINE then rev t else r
            | [] => r
            end in
  if Nat.leb 3 (length r')
     && prefixb (rev FENJU) (rev r')
     && negb (existsb (Z.eqb NEWLINE) r')
  then Some r' else None.

(** [cap_branch_pattern.match(line)] with
    [cap_branch_pattern = re.compile(r"(\d+)(.+分局)$")]: groups 1 and 2. *)
Definition cap_branch_match (line : pystr) : option (pystr * pystr) :=
  let fix first (cs : list (pystr * pystr)) :=
    match cs with
    | [] => None
    | (d, r) :: cs' =>
        match branch_tail r with
        | Some b => Some (d, b)
        | None => first cs'
        end
    end in
  first (digit_splits line).

(** [re.search(r"新市區(\S+里)", text)]: group 1. At a position after
    [新市區], [\S+] takes the maximal run of non-space characters and
    backtracks to the last [里] that has at least one character before it. *)
Fixpoint take_nonspace (s : pystr) : pystr :=
  match s with
  | c :: s' => if is_space c then [] else c :: take_nonspace s'
  | [] => []
  end.

Definition li_group (s : pystr) : option pystr :=
  let w := take_nonspace s in
  let fix go (i : nat) (acc : option pystr) (u : pystr) :=
    match u with
    | [] => acc
    | c :: u' =>
        go (S i) (if Nat.leb 1 i && (c =? LI)
                  then Some (take (S i) w) else acc) u'
    end in
  go 0%nat None w.

Fixpoint search_li (s : pystr) : option pystr :=
  match (if prefixb XINSHI s then li_group (drop 3 s) else None) with
  | Some g => Some g
  | None => match s with [] => None | _ :: s' => search_li s' end
  end.

(** [_extract_li(name, address)] *)
Definition extract_li (name address : pystr) : option pystr :=
  match search_li name with
  | Some g => Some g
  | None => search_li address
  end.

Record Facility := mkFacility {
  fac_name : pystr;
  fac_address : pystr;
  fac_capacity : Z;
  fac_branch : pystr;
  fac_district : option pystr;
  fac_li : option pystr;
  fac_slug : option pystr
}.

(** The loop over [pending] that splits it into name and address parts:
    a line goes to the address once it starts with [臺南市] or once an
    address part has been collected. *)
Definition split_step (acc : list pystr * list pystr) (entry_line : pystr)
    : list pystr * list pystr :=
  let '(name_parts, address_parts) := acc in
  if startswith entry_line TAINAN || negb (is_nil address_parts)
  then (name_parts, address_parts ++ [entry_line])
  else (name_parts ++ [entry_line], address_parts).

Definition split_pending (pending : list pystr) : list pystr * list pystr :=
  fold_left split_step pending ([], []).

(** The record closed by a terminal line with groups [d] and [b]. *)
Definition close_record (pending : list pystr) (d b : pystr) : Facility :=
  let '(name_parts, address_parts) := split_pending pending in
  let name := strip (concat name_parts) in
  let address := strip (concat address_parts) in
  mkFacility name address (py_int d) b
    (if contains name XINSHI || contains address XINSHI then Some XINSHI else None)
    (extract_li name address) None.

(** One iteration of the [for line in lines] loop; the state is
    [(facilities, pending)]. *)
Definition pf_step (st : list Facility * list pystr) (line : pystr)
    : list Facility * list pystr :=
  let '(facilities, pending) := st in
  match cap_branch_match line with
  | Some (d, b) => (facilities ++ [close_record pending d b], [])
  | None => (facilities, pending ++ [line])
  end.

(** [parse_facilities(lines)] *)
Definition parse_facilities (lines : list pystr) : list Facility :=
  fst (fold_left pf_step lines ([], [])).

(** *** slugify and the slug loop of [main()] *)

(** [[a-zA-Z0-9]] *)
Definition is_ascii_alnum (c : Z) : bool :=
  ((48 <=? c) && (c <=? 57)) || ((65 <=? c) && (c <=? 90)) || ((97 <=? c) && (c <=? 122)).

(** [re.sub(r"[^a-zA-Z0-9]+", "-", s)]; [in_run]: the previous character
    was part of a replaced run. *)
Fixpoint sub_nonalnum (in_run : bool) (s : pystr) : pystr :=
  match s with
  | [] => []
  | c :: s' =>
      if is_ascii_alnum c then c :: sub_nonalnum false s'
      else if in_run then sub_nonalnum true s' else 45 :: sub_nonalnum true s'
  end.

(** [str.lower()] on ASCII. *)
Definition ascii_lower (c : Z) : Z := if (65 <=? c) && (c <=? 90) then c + 32 else c.

(** [f"{n:03d}"] for [n >= 0]. *)
Definition pad3 (n : Z) : pystr :=
  let s := py_str n in repeat 48 (3 - length s) ++ s.

(** [slugify(sequence, name)] *)
Definition slugify (sequence : Z) (name : pystr) : pystr :=
  let fallback := asc "facility-" ++ pad3 sequence in
  let ascii_name := strip_chars [45] (sub_nonalnum false name) in
  if is_nil ascii_name then fallback else fallback ++ [45] ++ map ascii_lower ascii_name.

(** [for idx, facility in enumerate(facilities, start=1):
        facility.slug = slugify(idx, facility.name)] *)
Definition main_slugs (facilities : list Facility) : list pystr :=
  imap (fun i f => slugify (Z.of_nat i + 1) (fac_name f)) facilities.

End ExtractFacilities.

(** ** scripts/extract_shelters.py *)

Module Shelters.

Record Shelter := mkShelter {
  sh_district : pystr;
  sh_village : pystr;
  sh_name : pystr;
  sh_address : pystr;
  sh_capacity : Z;
  sh_branch : pystr
}.

(** [re.search(br"begincmap(.*?)endcmap", raw_pdf, re.S).group(0)] *)
Definition search_cmap_block (raw_pdf : pystr) : option pystr :=
  p ← find_idx raw_pdf (asc "begincmap");
  q ← find_idx (drop (p + 9) raw_pdf) (asc "endcmap");
  Some (take (9 + q + 7) (drop p raw_pdf)).

(** [<([0-9A-F]{4})> <([0-9A-F]{4})>] *)
Definition m_pair_sp (s : pystr) : option ((Z * Z) * nat) :=
  r ← lit (asc "<") s; '(v1, r) ← hex4u r; r ← lit (asc "> <") r;
  '(v2, r) ← hex4u r; r ← lit (asc ">") r;
  Some ((v1, v2), consumed s r).

(** [_load_cmap_mapping(raw_pdf)]; a one-character [str] value is stored
    as its code point. [None]: the function raises [ValueError]. *)
Definition _load_cmap_mapping (raw_pdf : pystr) : option (gmap Z Z) :=
  cmap_text ← search_cmap_block raw_pdf;
  let mapping := fold_left (fun (m : gmap Z Z) (cv : Z * Z) => <[fst cv := snd cv]> m)
                   (findall m_pair_sp cmap_text) ∅ in
  if bool_decide (mapping = ∅) then None else Some mapping.

Section WithZlib.
Variable zlib_decompress : pystr -> option pystr.

(** The loop of [_decompress_streams] over the located segments. *)
Fixpoint decompress_segments (segs : list (option pystr)) : list pystr :=
  match segs with
  | [] => []
  | None :: segs' => decompress_segments segs'
  | Some seg :: segs' =>
      match zlib_decompress (strip_chars CRLF seg) with
      | Some decompressed => decompressed :: decompress_segments segs'
      | None => decompress_segments segs'
      end
  end.

(** [_decompress_streams(raw_pdf)] *)
Definition _decompress_streams (raw_pdf : pystr) : list pystr :=
  decompress_segments (stream_segments raw_pdf).

(** [_decode_streams(streams, cmap)]: unmapped codes become ["?"]. *)
Definition _decode_streams (streams : list pystr) (cmap : gmap Z Z) : pystr :=
  concat (map (fun stream => map (fun code => default 63 (cmap !! code))
                                 (findall m_hex4_angle stream)) streams).

(** The three literals removed by [_cleanup_text]. *)
Definition HEADER1 : pystr :=
  [0x81fa; 0x5357; 0x5e02; 0x65b0; 0x5e02; 0x5340; 0x9632; 0x7a7a; 0x758f;
   0x6563; 0x907f; 0x96e3; 0x8a2d; 0x65bd; 0x4e00; 0x89bd; 0x8868; 0x31;
   0x31; 0x33; 0x2f; 0x30; 0x37; 0x2f; 0x30; 0x32; 0x66f4; 0x65b0; 0x7b2c;
   0x31; 0x9801; 0x20; 0x5171; 0x32; 0x9801].
Definition FOOTER2 : pystr := [0x7b2c; 0x32; 0x9801; 0x20; 0x5171; 0x32; 0x9801].
Definition COLUMNS : pystr :=
  [0x5340; 0x5225; 0x91cc; 0x5225; 0x540d; 0x7a31; 0x5730; 0x5740; 0x5bb9;
   0x91cf; 0x28; 0x53ef; 0x5bb9; 0x7d0d; 0x4eba; 0x6578; 0x29; 0x8f44;
   0x7ba1; 0x5206; 0x5c40].

(** [_cleanup_text(raw_text)] *)
Definition _cleanup_text (raw_text : pystr) : pystr :=
  strip (replace (replace (replace raw_text HEADER1 []) FOOTER2 []) COLUMNS []).

(** [_split_entries(clean_text)] *)
Definition _split_entries (clean_text : pystr) : list pystr :=
  let chunks := py_split clean_text (SHANHUA ++ XINSHI) in
  let n := length chunks in
  let fix go (index : nat) (cs : list pystr) :=
    match cs with
    | [] => []
    | chunk :: cs' =>
        let chunk := strip chunk in
        if is_nil chunk then go (S index) cs'
        else
          let chunk := if Nat.ltb index (n - 1) then chunk ++ SHANHUA else chunk in
          let chunk := if startswith chunk XINSHI then chunk else XINSHI ++ chunk in
          chunk :: go (S index) cs'
    end in
  go 0%nat chunks.

(** [re.search(r"(\d+)(善化分局)?$", entry)]: the match starts at the
    first digit [p] whose maximal digit run is followed by nothing, by a
    newline, by 善化分局, or by 善化分局 and a newline; returns
    [(p, group 1)]. *)
Definition capacity_tail_ok (t : pystr) : bool :=
  bool_decide (t = []) || bool_decide (t = [NEWLINE]) ||
  bool_decide (t = SHANHUA) || bool_decide (t = SHANHUA ++ [NEWLINE]).

Fixpoint search_capacity (pos : nat) (s : pystr) : option (nat * pystr) :=
  match s with
  | [] => None
  | c :: s' =>
      let ds := take_digits s in
      if is_digit c && capacity_tail_ok (drop (length ds) s) then Some (pos, ds)
      else search_capacity (S pos) s'
  end.

(** [re.match] of [([^里]+里)] followed by a second group taking the rest
    of the line, on [remainder]: groups 1 and 2. *)
Fixpoint take_line (s : pystr) : pystr :=
  match s with
  | c :: s' => if c =? NEWLINE then [] else c :: take_line s'
  | [] => []
  end.

Definition match_village (remainder : pystr) : option (pystr * pystr) :=
  match find_idx remainder [LI] with
  | Some (S i) => Some (take (S (S i)) remainder, take_line (drop (S (S i)) remainder))
  | _ => None
  end.

(** [_parse_entry(entry)]; [None]: it raises [ValueError]. *)
Definition _parse_entry (entry : pystr) : option Shelter :=
  '(start, digits) ← search_capacity 0%nat entry;
  let capacity := py_int digits in
  let prefix := take start entry in
  if negb (startswith prefix XINSHI) then None else
  let remainder := removeprefix prefix XINSHI in
  '(village, details) ← match_village remainder;
  let '(name, address) :=
    match find_idx details TAINAN with
    | None => (details, [])
    | Some address_index => (take address_index details, drop address_index details)
    end in
  Some (mkShelter XINSHI village name address capacity SHANHUA).

(** [[_parse_entry(entry) for entry in entries]]: the first failing entry
    makes the whole comprehension raise. *)
Fixpoint parse_all (entries : list pystr) : option (list Shelter) :=
  match entries with
  | [] => Some []
  | e :: es => r ← _parse_entry e; rs ← parse_all es; Some (r :: rs)
  end.

(** [extract_shelters(pdf_path)] on the bytes of the file. *)
Definition extract_shelters (raw_pdf : pystr) : option (list Shelter) :=
  cmap ← _load_cmap_mapping raw_pdf;
  let streams := _decompress_streams raw_pdf in
  let decoded_text := _decode_streams streams cmap in
  let clean_text := _cleanup_text decoded_text in
  let entries := _split_entries clean_text in
  parse_all entries.

End WithZlib.

End Shelters.

(** ** scripts/generate_site.py *)

Module GenerateSite.
Import ExtractFacilities.

Record Row := mkRow {
  name_parts : list pystr;
  address_parts : list pystr;
  capacity_division : option pystr
}.

(** [[0-9A-Fa-f]+], greedy. *)
Definition is_hex (c : Z) : bool :=
  match hexval c with Some _ => true | None => false end.

Fixpoint take_hex_any (s : pystr) : pystr :=
  match s with
  | c :: s' => if is_hex c then c :: take_hex_any s' else []
  | [] => []
  end.

(** [int(s, 16)] for a non-empty string of hexadecimal digits. *)
Definition hex_value (s : pystr) : Z :=
  fold_left (fun acc c => acc * 16 + default 0 (hexval c)) s 0.

(** [rb"<([0-9A-Fa-f]+)>\s*<([0-9A-Fa-f]+)>"] with both groups read by
    [int(_, 16)]. *)
Definition m_pair_any (s : pystr) : option ((Z * Z) * nat) :=
  r ← lit (asc "<") s;
  let h1 := take_hex_any r in
  if is_nil h1 then None else
  r ← lit (asc ">") (drop (length h1) r);
  let r := drop_while is_space_ascii r in
  r ← lit (asc "<") r;
  let h2 := take_hex_any r in
  if is_nil h2 then None else
  r ← lit (asc ">") (drop (length h2) r);
  Some ((hex_value h1, hex_value h2), consumed s r).

Section WithZlib.
Variable zlib_decompress : pystr -> option pystr.

(** The loop of [extract_streams] over the located segments: a segment
    that does not decompress is kept as it is. *)
Fixpoint streams_of_segments (segs : list (option pystr)) : list pystr :=
  match segs with
  | [] => []
  | None :: segs' => streams_of_segments segs'
  | Some seg :: segs' =>
      let raw := strip_chars CRLF seg in
      match zlib_decompress raw with
      | Some d => d :: streams_of_segments segs'
      | None => raw :: streams_of_segments segs'
      end
  end.

(** [extract_streams(pdf_bytes)] *)
Definition extract_streams (pdf_bytes : pystr) : list pystr :=
  streams_of_segments (stream_segments pdf_bytes).

End WithZlib.

(** [build_cmap(streams)] *)
Fixpoint build_cmap (streams : list pystr) : gmap Z Z :=
  match streams with
  | [] => ∅
  | stream :: streams' =>
      if negb (contains stream (asc "beginbfchar")) then build_cmap streams' else
      let pairs := findall m_pair_any stream in
      if is_nil pairs then build_cmap streams'
      else fold_left (fun (m : gmap Z Z) (sd : Z * Z) => <[fst sd := snd sd]> m) pairs ∅
  end.

(** [r"\[<([^]]+)>[^\]]*\]"]: group 1 is everything up to the last [>]
    before the first [\]], and must not be empty. *)
Definition m_section (s : pystr) : option (pystr * nat) :=
  r ← lit (asc "[<") s;
  k ← find_idx r (asc "]");
  j ← rfind_idx (take k r) (asc ">");
  if Nat.eqb j 0 then None else
  Some (take j r, consumed s (drop (S k) r)).

(** [r"([0-9A-Fa-f]{4})"] *)
Definition m_code4 (s : pystr) : option (Z * nat) :=
  match s with
  | a :: b :: c :: d :: _ =>
      if is_hex a && is_hex b && is_hex c && is_hex d
      then Some (hex_value [a; b; c; d], 4%nat) else None
  | _ => None
  end.

(** [decoded = "".join(chr(cmap[int(code, 16)]) for code in codes if int(code, 16) in cmap)] *)
Definition decode_section_codes (codes : list Z) (cmap : gmap Z Z) : option pystr :=
  mapM (fun code => v ← cmap !! code; py_chr v) (filter (fun code => is_Some (cmap !! code)) codes).

(** [decode_sections(stream, cmap)]; [None]: it raises (the [chr]). *)
Definition decode_sections (stream : pystr) (cmap : gmap Z Z) : option (list pystr) :=
  decoded ← mapM (fun raw_hexes => decode_section_codes (findall m_code4 raw_hexes) cmap)
                 (findall m_section stream);
  Some (filter (fun d => negb (is_nil d)) decoded).

(** [clean_sections(sections)] *)
Definition clean_sections (sections : list pystr) : list pystr :=
  filter (fun c => negb (is_nil c))
    (map (fun item => strip (filter (fun ch => negb (ch =? 0xffff)) item)) sections).

(** The keys of [remove_headers_and_footers], then its "更新" literal. *)
Definition HEADER_KEYS : list pystr :=
  [ [0x5340; 0x5225; 0x91cc; 0x5225; 0x540d; 0x7a31; 0x5730; 0x5740]  (* 區別里別名稱地址 *)
  ; [0x5bb9; 0x91cf; 0x28; 0x53ef; 0x5bb9; 0x7d0d; 0x4eba; 0x6578; 0x29]
                                                                    (* 容量(可容納人數) *)
  ; [0x8f44; 0x7ba1; 0x5206; 0x5c40]                                (* 轄管分局 *)
  ; [0x9632; 0x7a7a; 0x758f; 0x6563; 0x907f; 0x96e3; 0x8a2d; 0x65bd; 0x4e00; 0x89bd; 0x8868]
                                                                    (* 防空疏散避難設施一覽表 *)
  ; [0x7b2c; 0x31; 0x9801]                                          (* 第1頁 *)
  ; [0x7b2c; 0x32; 0x9801]                                          (* 第2頁 *)
  ].
Definition UPDATED : pystr := [0x66f4; 0x65b0].

(** [re.search(r"\d{3}/\d{2}/\d{2}", item)]: the matched text. *)
Definition date_at (s : pystr) : bool :=
  let d i := match s !! i with Some c => is_digit c | None => false end in
  let slash i := match s !! i with Some c => c =? 47 | None => false end in
  d 0%nat && d 1%nat && d 2%nat && slash 3%nat && d 4%nat && d 5%nat && slash 6%nat
  && d 7%nat && d 8%nat.

Fixpoint search_date (s : pystr) : option pystr :=
  if date_at s then Some (take 9 s)
  else match s with [] => None | _ :: s' => search_date s' end.

(** [remove_headers_and_footers(sections)] *)
Fixpoint remove_headers_and_footers_aux (sections : list pystr) (update_date : option pystr)
    : list pystr * option pystr :=
  match sections with
  | [] => ([], update_date)
  | item :: rest =>
      if existsb (fun key => contains item key) HEADER_KEYS
      then remove_headers_and_footers_aux rest update_date
      else if contains item UPDATED
      then remove_headers_and_footers_aux rest
             (match search_date item with Some dt => Some dt | None => update_date end)
      else let '(filtered, ud) := remove_headers_and_footers_aux rest update_date in
           (item :: filtered, ud)
  end.

Definition remove_headers_and_footers (sections : list pystr) : list pystr * option pystr :=
  remove_headers_and_footers_aux sections None.

(** [assemble_rows(sections)] *)
Definition assemble_item (current : Row) (item : pystr) : Row :=
  if startswith item (TAINAN ++ XINSHI)
  then mkRow (name_parts current) (address_parts current ++ [item]) (capacity_division current)
  else if (match item with c :: _ => is_digit c | [] => false end)
  then mkRow (name_parts current) (address_parts current) (Some item)
  else if negb (is_nil (address_parts current)) &&
          (match capacity_division current with None => true | Some cd => is_nil cd end)
  then mkRow (name_parts current) (address_parts current ++ [item]) (capacity_division current)
  else mkRow (name_parts current ++ [item]) (address_parts current) (capacity_division current).

Fixpoint assemble_rows_aux (sections : list pystr) (rows : list Row) (current : option Row)
    : list Row :=
  match sections with
  | [] => match current with Some c => rows ++ [c] | None => rows end
  | item :: rest =>
      if startswith item XINSHI then
        assemble_rows_aux rest (match current with Some c => rows ++ [c] | None => rows end)
          (Some (mkRow [item] [] None))
      else match current with
           | None => assemble_rows_aux rest rows None
           | Some c => assemble_rows_aux rest rows (Some (assemble_item c item))
           end
  end.

Definition assemble_rows (sections : list pystr) : list Row :=
  assemble_rows_aux sections [] None.

(** The [Facility] dataclass of generate_site.py. *)
Record SiteFacility := mkSiteFacility {
  sf_district : pystr;
  sf_village : pystr;
  sf_name : pystr;
  sf_address : pystr;
  sf_capacity : option Z;
  sf_division : pystr;
  sf_slug : pystr
}.

Section Finalize.
(** [slugify(text, fallback)], built on [unicodedata.normalize("NFKD", ...)],
    left abstract. *)
Variable slugify : pystr -> pystr -> pystr.

(** The body of the loop of [finalize_facilities] for the row [row] at
    position [idx] (counted from 1). *)
Definition finalize_row (idx : Z) (row : Row) : SiteFacility :=
  let name_blob := concat (name_parts row) in
  let district := XINSHI in
  let remainder := drop (length district) name_blob in
  let village := match find_idx remainder [LI] with
                 | Some i => take (S i) remainder
                 | None => []
                 end in
  let facility_name := drop (length village) remainder in
  let address := concat (address_parts row) in
  let cap_div := match capacity_division row with Some cd => cd | None => [] end in
  let '(capacity, division) :=
    match cap_div with
    | c :: _ =>
        if is_digit c then
          let ds := take_digits cap_div in
          (Some (py_int ds), Shelters.take_line (drop (length ds) cap_div))
        else (None, [])
    | [] => (None, [])
    end in
  let slug := slugify (village ++ [45] ++ facility_name) (asc "facility-" ++ pad2 idx) in
  mkSiteFacility district village facility_name address capacity division slug.

(** [finalize_facilities(rows)] *)
Definition finalize_facilities (rows : list Row) : list SiteFacility :=
  imap (fun i row => finalize_row (Z.of_nat i + 1) row) rows.

End Finalize.

Section WithZlib.
Variable zlib_decompress : pystr -> option pystr.

(** [extract_facilities()] on the bytes of the PDF, up to [assemble_rows]
    and the update date; its last step, [finalize_facilities], names the
    rows with slugs built by [unicodedata.normalize("NFKD", ...)], which is
    not modelled. [None]: the function raises. *)
Definition extract_facilities_rows (pdf_bytes : pystr) : option (list Row * option pystr) :=
  let streams := extract_streams zlib_decompress pdf_bytes in
  let cmap := build_cmap streams in
  if bool_decide (cmap = ∅) then None else
  sections ← mapM (fun stream =>
                     if contains stream (asc "TJ") && contains stream (asc "Tf")
                     then decode_sections stream cmap else Some [])
                  streams;
  let cleaned := clean_sections (concat sections) in
  let '(filtered, update_date) := remove_headers_and_footers cleaned in
  Some (assemble_rows filtered, update_date).

End WithZlib.

End GenerateSite.

(** ** scripts/build_sites.py : _extract_text_runs *)

Module BuildSites.
Import ExtractFacilities GenerateSite.

(** [r"beginbfchar(.*?)endbfchar"] with [re.S]: the group. *)
Definition m_bfchar (s : pystr) : option (pystr * nat) :=
  r ← lit (asc "beginbfchar") s;
  k ← find_idx r (asc "endbfchar");
  Some (take k r, consumed s (drop (k + 9) r)).

(** [r"<([0-9A-F]+)>\s*<([0-9A-F]+)>"] on a [str], both groups read by
    [int(_, 16)]. *)
Definition m_pair_upper (s : pystr) : option ((Z * Z) * nat) :=
  r ← lit (asc "<") s;
  let h1 := take_hex r in
  if is_nil h1 then None else
  r ← lit (asc ">") (drop (length h1) r);
  let r := drop_while is_space r in
  r ← lit (asc "<") r;
  let h2 := take_hex r in
  if is_nil h2 then None else
  r ← lit (asc ">") (drop (length h2) r);
  Some ((hex_value h1, hex_value h2), consumed s r).

(** [mapping[int(code, 16)] = chr(int(uni, 16))]; [None]: [chr] raised
    before. *)
Definition add_glyph (acc : option (gmap Z Z)) (p : Z * Z) : option (gmap Z Z) :=
  m ← acc; v ← py_chr (snd p); Some (<[fst p := v]> m).

(** [_build_unicode_map(pdf_text)]; a one-character [str] value is stored
    as its code point. [None]: the function raises ([chr]). *)
Definition _build_unicode_map (pdf_text : pystr) : option (gmap Z Z) :=
  fold_left (fun acc block => fold_left add_glyph (findall m_pair_upper block) acc)
    (findall m_bfchar pdf_text) (Some ∅).

(** The [Facility] dataclass of build_sites.py. *)
Record BuildFacility := mkBuildFacility {
  bf_area : pystr;
  bf_village : pystr;
  bf_name : pystr;
  bf_address : pystr;
  bf_capacity : Z;
  bf_division : pystr;
  bf_slug : pystr
}.

(** "區" *)
Definition QU : Z := 0x5340.

(** [re.match(r"(?P<area>.{2,3}區)(?P<village>[^里]+里)(?P<rest>.+)", s)]
    with the area taking [k] characters before 區: the groups. Neither
    [.] matches a newline; [[^里]+里] ends at the first 里, and [.+] takes
    the rest of the line, at least one character. *)
Definition match_area (k : nat) (s : pystr) : option (pystr * pystr * pystr) :=
  if forallb (fun c => negb (c =? NEWLINE)) (take k s) && bool_decide (length (take k s) = k)
     && bool_decide (s !! k = Some QU) then
    let r := drop (S k) s in
    match find_idx r [LI] with
    | Some (S i) =>
        let rest := Shelters.take_line (drop (S (S i)) r) in
        if is_nil rest then None else Some (take (S k) s, take (S (S i)) r, rest)
    | _ => None
    end
  else None.

(** The greedy [.{2,3}] tries three characters first, then two. *)
Definition match_entry (s : pystr) : option (pystr * pystr * pystr) :=
  match match_area 3 s with
  | Some m => Some m
  | None => match_area 2 s
  end.

(** [re.search(r"(\d+)(善化分局)$", s)] on a string without newline: the
    first digit whose maximal digit run is followed by 善化分局 and the
    end; returns its position and group 1. *)
Fixpoint search_capacity_end (pos : nat) (s : pystr) : option (nat * pystr) :=
  match s with
  | [] => None
  | c :: s' =>
      let ds := take_digits s in
      if is_digit c && bool_decide (drop (length ds) s = SHANHUA) then Some (pos, ds)
      else search_capacity_end (S pos) s'
  end.

(** The body of the loop of [_parse_facilities] for [entries[index]]. *)
Definition parse_entry (index : nat) (entry : pystr) : option BuildFacility :=
  let trimmed := strip entry in
  if is_nil trimmed then None else
  let trimmed := trimmed ++ SHANHUA in
  '(area, village, rest) ← match_entry trimmed;
  address_start ← find_idx rest TAINAN;
  let name := take address_start rest in
  let address_and_capacity := drop address_start rest in
  '(start, digits) ← search_capacity_end 0%nat address_and_capacity;
  let capacity := py_int digits in
  let address := take start address_and_capacity in
  let slug := asc "facility-" ++ pad3 (Z.of_nat index + 1) in
  Some (mkBuildFacility area village name address capacity SHANHUA slug).

Fixpoint parse_entries (index : nat) (entries : list pystr) : list BuildFacility :=
  match entries with
  | [] => []
  | entry :: entries' =>
      match parse_entry index entry with
      | Some f => f :: parse_entries (S index) entries'
      | None => parse_entries (S index) entries'
      end
  end.

(** [_parse_facilities(raw_text)] *)
Definition _parse_facilities (raw_text : pystr) : list BuildFacility :=
  let cleaned := replace raw_text Shelters.COLUMNS [] in
  parse_entries 0%nat (py_split cleaned SHANHUA).

Section WithZlib.
Variable zlib_decompress : pystr -> option pystr.

(** The loop of [_extract_text_runs] over the located segments. *)
Fixpoint text_runs_of_segments (segs : list (option pystr)) (mapping : gmap Z Z) : pystr :=
  match segs with
  | [] => []
  | None :: segs' => text_runs_of_segments segs' mapping
  | Some seg :: segs' =>
      match zlib_decompress (strip_chars CRLF seg) with
      | None => text_runs_of_segments segs' mapping
      | Some decoded =>
          if negb (contains decoded (asc "BT")) then text_runs_of_segments segs' mapping
          else map (fun glyph => default 63 (mapping !! hex_value glyph))
                   (findall m_hex_plus decoded)
               ++ text_runs_of_segments segs' mapping
      end
  end.

(** [_extract_text_runs(pdf_bytes, mapping)]; a one-character [str]
    value of [mapping] is stored as its code point. *)
Definition _extract_text_runs (pdf_bytes : pystr) (mapping : gmap Z Z) : pystr :=
  text_runs_of_segments (stream_segments pdf_bytes) mapping.

(** [extract_facilities(pdf_path)] on the bytes of the file, which
    [read_text("latin-1")] reads as the same list; [None]: it raises. *)
Definition extract_facilities (pdf_bytes : pystr) : option (list BuildFacility) :=
  unicode_map ← _build_unicode_map pdf_bytes;
  Some (_parse_facilities (_extract_text_runs pdf_bytes unicode_map)).

End WithZlib.

End BuildSites.

(** ** generate_sites.py *)

Module GenerateSites.
Import ExtractFacilities GenerateSite.

Section WithZlib.
Variable zlib_decompress : pystr -> option pystr.

(** [chr(mapping.get(int(code, 16), int(code, 16)))] over the codes of one
    stream, joined. *)
Definition decode_codes (hex_codes : list pystr) (mapping : gmap Z Z) : option pystr :=
  mapM (fun code => let v := hex_value code in py_chr (default v (mapping !! v))) hex_codes.

(** The loop of [decode_text_streams] over the located segments; the
    segment is not stripped here. *)
Fixpoint decode_segments (segs : list (option pystr)) (mapping : gmap Z Z) : option pystr :=
  match segs with
  | [] => Some []
  | None :: segs' => decode_segments segs' mapping
  | Some stream :: segs' =>
      match zlib_decompress stream with
      | None => decode_segments segs' mapping
      | Some decompressed =>
          let hex_codes := findall m_hex_plus decompressed in
          if is_nil hex_codes then decode_segments segs' mapping
          else chunk ← decode_codes hex_codes mapping;
               rest ← decode_segments segs' mapping;
               Some (chunk ++ rest)
      end
  end.

(** [decode_text_streams(pdf_bytes, mapping)]; [None]: it raises. *)
Definition decode_text_streams (pdf_bytes : pystr) (mapping : gmap Z Z) : option pystr :=
  decode_segments (stream_segments pdf_bytes) mapping.

End WithZlib.

Section Slugs.
(** [str.isalnum()] *)
Variable isalnum : Z -> bool.

(** [base_slug = "".join(ch for ch in entry["name"] if ch.isalnum()) or "facility"] *)
Definition base_slug (name : pystr) : pystr :=
  let b := filter isalnum name in
  if is_nil b then asc "facility" else b.

(** The slug loop of [parse_facilities(text)], over the names of
    [raw_entries] in order, with [slug_counts]. *)
Fixpoint assign_slugs (names : list pystr) (slug_counts : gmap pystr Z) : list pystr :=
  match names with
  | [] => []
  | name :: names' =>
      let base := base_slug name in
      let n := default 0 (slug_counts !! base) + 1 in
      let slug := if n =? 1 then base else base ++ [45] ++ py_str n in
      slug :: assign_slugs names' (<[base := n]> slug_counts)
  end.

End Slugs.

End GenerateSites.

(** ** scripts/build_site.py *)

Module BuildSite.
Import Shelters.

Section WithWord.
(** [\w] of a [str] pattern: the Unicode word characters (alphanumerics
    and the underscore), left abstract. *)
Variable is_word : Z -> bool.

(** Membership in [[\w\u4e00-\u9fff-]]. *)
Definition safe_char (c : Z) : bool :=
  is_word c || ((0x4e00 <=? c) && (c <=? 0x9fff)) || (c =? 45).

(** [re.sub(r"-+", "-", s)]; [in_run]: the previous character was a
    ["-"] of the current run. *)
Fixpoint collapse_dashes (in_run : bool) (s : pystr) : pystr :=
  match s with
  | [] => []
  | c :: s' =>
      if c =? 45 then (if in_run then collapse_dashes true s' else 45 :: collapse_dashes true s')
      else c :: collapse_dashes false s'
  end.

(** [slugify(text, index)] for [index >= 0]. *)
Definition slugify (text : pystr) (index : Z) : pystr :=
  let base := py_str (index + 1) ++ [45] ++ text in
  let safe := map (fun c => if safe_char c then c else 45) base in
  let safe := strip_chars [45] (collapse_dashes false safe) in
  if is_nil safe then asc "shelter-" ++ py_str (index + 1) else safe.

(** [with_slug(shelters)]: each shelter with its ["slug"]. *)
Definition with_slug (shelters : list Shelter) : list (Shelter * pystr) :=
  imap (fun idx shelter =>
          (shelter, slugify (sh_village shelter ++ [45] ++ sh_name shelter) (Z.of_nat idx)))
    shelters.

End WithWord.

End BuildSite.

(** ** scripts/build_pages.py *)

Module BuildPages.

(** The digits of [f"{n:,}"], least significant first, with a [","]
    after every third digit that is followed by another. *)
Fixpoint group_rev (ds : pystr) : pystr :=
  match ds with
  | a :: b :: c :: ((_ :: _) as rest) => a :: b :: c :: 44 :: group_rev rest
  | _ => ds
  end.

(** [f"{value:,}"] *)
Definition format_thousands (value : Z) : pystr :=
  if value <? 0 then 45 :: rev (group_rev (rev (py_str (- value))))
  else rev (group_rev (rev (py_str value))).

(** [format_capacity(value)] *)
Definition format_capacity (value : option Z) : pystr :=
  match value with
  | None => asc "N/A"
  | Some v => format_thousands v
  end.

(** [facility_slug(index)] for [index >= 0]. *)
Definition facility_slug (index : Z) : pystr := asc "shelter-" ++ pad2 (index + 1).

End BuildPages.

(** ** Sample inputs (the table row of the spec's example) *)

Module Samples.
Import ExtractFacilities.
(** "聯華電子" *)
Definition name_line : pystr := [0x806f; 0x83ef; 0x96fb; 0x5b50].
(** "臺南市新市區中央路1號" *)
Definition address_line : pystr :=
  TAINAN ++ XINSHI ++ [0x4e2d; 0x592e; 0x8def] ++ asc "1" ++ [0x865f].
(** "120善化分局" *)
Definition terminal_line : pystr := asc "120" ++ SHANHUA.

(** The zlib stream of [data] in one stored block, as
    [zlib.compress(data, 0)] writes it for short data. *)
Definition mk_stored (data : pystr) : pystr :=
  let n := Z.of_nat (length data) in
  let ad := adler32 data in
  [0x78; 0x01; 0x01; n mod 256; n / 256; (65535 - n) mod 256; (65535 - n) / 256]
  ++ data ++ [ad / 16777216; (ad / 65536) mod 256; (ad / 256) mod 256; ad mod 256].

(** A ToUnicode CMap for the glyphs of one table row. *)
Definition row_cmap : pystr :=
  asc "begincmap 13 beginbfchar <0001> <65B0> <0002> <5E02> <0003> <5340> <0004> <4E2D> <0005> <91CC> <0006> <806F> <0007> <81FA> <0008> <5357> <0009> <0031> <000A> <5584> <000B> <5316> <000C> <5206> <000D> <5C40> endbfchar endcmap ".

(** A content stream showing 新市區中里聯臺南市1善化分局. *)
Definition row_content : pystr :=
  asc "BT [<0001><0002><0003><0004><0005><0006><0007><0008><0002><0009><000A><000B><000C><000D>] TJ ET".

Definition row_pdf : pystr :=
  row_cmap ++ asc "stream" ++ [10] ++ mk_stored row_content ++ [10] ++ asc "endstream".

(** A glyph code as the PDF writes it: four upper-case hexadecimal digits. *)
Definition hex_digit (d : Z) : Z := if d <? 10 then 48 + d else 55 + d.
Definition hex4_encode (c : Z) : pystr :=
  [hex_digit (c / 4096); hex_digit (c / 256 mod 16); hex_digit (c / 16 mod 16);
   hex_digit (c mod 16)].

(** A CMap stream with a [(start, end, base)] range and an array range:
    [1 beginbfrange / <0041> <0041> <0061> / <0010> <0012> [<0041> <0042> <0043>] /
    endbfrange]. *)
Definition range_pdf : pystr :=
  asc "stream" ++ [10] ++ asc "1 beginbfrange" ++ [10] ++ asc "<0041> <0041> <0061>"
  ++ [10] ++ asc "<0010> <0012> [<0041> <0042> <0043>]" ++ [10] ++ asc "endbfrange"
  ++ [10] ++ CMAPNAME ++ asc " def" ++ [10] ++ asc "endstream".

(** A PDF whose only stream holds [abc], which is neither a CMap nor a
    zlib stream. *)
Definition plain_stream_pdf : pystr :=
  asc "stream" ++ [10] ++ asc "abc" ++ [10] ++ asc "endstream".

(** A content stream showing the glyph code [<110000>]. *)
Definition big_code_pdf : pystr :=
  asc "stream" ++ [10] ++ mk_stored (asc "BT [<110000>] TJ ET") ++ asc "endstream".

(** "臺南市新市區更新路1號", an address on a road whose name holds 更新. *)
Definition update_road_run : pystr :=
  TAINAN ++ XINSHI ++ [0x66f4; 0x65b0; 0x8def] ++ asc "1" ++ [0x865f].

(** The glyph codes 1, 2, ... for the characters of [update_road_run]. *)
Definition update_road_cmap : gmap Z Z :=
  list_to_map (zip (map Z.of_nat (seq 1 (length update_road_run))) update_road_run).

(** An uncompressed content stream showing [update_road_run]. *)
Definition update_road_pdf : pystr :=
  asc "stream" ++ [10] ++ asc "[<"
  ++ concat (map hex4_encode (map Z.of_nat (seq 1 (length update_road_run))))
  ++ asc ">] TJ" ++ [10] ++ asc "endstream".

(** A CMap with the single entry <0001> -> 新. *)
Definition one_glyph_cmap : gmap Z Z := {[1 := 0x65B0]}.

(** Two facilities named [A]. *)
Definition facility_a : Facility := mkFacility (asc "A") [] 0 [] None None None.

(** A stream segment holding the zlib stream of [row_content ++ [0x7F]],
    whose Adler-32 trailer ends in the byte 0x0A, followed by a newline
    before [endstream]. *)
Definition newline_adler_pdf : pystr :=
  asc "stream" ++ [10] ++ mk_stored (row_content ++ [0x7F]) ++ [10] ++ asc "endstream".
End Samples.

(** * Properties *)

Arguments startswith : simpl never.

(** ** General facts about the string operations *)

Lemma prefixb_spec (p s : pystr) : prefixb p s = true <-> exists t, s = p ++ t.
Proof.
  revert s; induction p as [|x p IH]; intros s; simpl.
  - split; [intros _; exists s; reflexivity | auto].
  - destruct s as [|y s].
    + split; [discriminate | intros [t Ht]; discriminate].
    + rewrite andb_true_iff, Z.eqb_eq, IH. split.
      * intros [-> [t ->]]. exists t. reflexivity.
      * intros [t Ht]. injection Ht as -> ->. eauto.
Qed.

Lemma prefixb_app (p t : pystr) : prefixb p (p ++ t) = true.
Proof. apply prefixb_spec. eauto. Qed.

Lemma lstrip_ws_app_keep (u v : pystr) (c : Z) :
  is_space c = false -> exists X, lstrip_ws (u ++ c :: v) = X ++ c :: v.
Proof.
  intros Hc. induction u as [|a u IH]; simpl.
  - rewrite Hc. exists []. reflexivity.
  - destruct (is_space a).
    + exact IH.
    + exists (a :: u). reflexivity.
Qed.

(** [strip] keeps a leading literal made of non-space characters. *)
Lemma strip_keeps_prefix (p t : pystr) :
  p <> [] -> Forall (fun c => is_space c = false) p ->
  startswith (strip (p ++ t)) p = true.
Proof.
  intros Hne Hsp. unfold strip, startswith.
  destruct p as [|c p']; [congruence|].
  inversion Hsp as [|? ? Hc Hp']; subst.
  simpl (lstrip_ws _). rewrite Hc.
  destruct (rev (c :: p')) as [|c' v] eqn:Hr.
  { apply (f_equal (@length Z)) in Hr. rewrite length_rev in Hr. discriminate. }
  assert (Hc' : is_space c' = false).
  { assert (Hin : In c' (c :: p')).
    { apply in_rev. rewrite Hr. left. reflexivity. }
    rewrite Forall_forall in Hsp. apply Hsp. apply list_elem_of_In. exact Hin. }
  replace (rev (c :: p' ++ t)) with (rev t ++ c' :: v)
    by (change (c :: p' ++ t) with ((c :: p') ++ t); rewrite rev_app_distr, Hr; reflexivity).
  destruct (lstrip_ws_app_keep (rev t) v c' Hc') as [X HX].
  rewrite HX, rev_app_distr, <- Hr, rev_involutive.
  apply prefixb_app.
Qed.

Lemma strip_nil : strip [] = [].
Proof. reflexivity. Qed.

Lemma TAINAN_nonspace : Forall (fun c => is_space c = false) TAINAN.
Proof. repeat constructor. Qed.

Module ExtractFacilitiesFacts.
Import ExtractFacilities.

(** *** The terminal pattern *)

Lemma digit_splits_sound (s d r : pystr) :
  In (d, r) (digit_splits s) ->
  s = d ++ r /\ d <> [] /\ Forall (fun c => is_digit c = true) d.
Proof.
  revert d r; induction s as [|c t IH]; intros d r Hin; simpl in Hin.
  - contradiction.
  - destruct (is_digit c) eqn:Hc; [|contradiction].
    apply in_app_or in Hin as [Hin|Hin].
    + apply in_map_iff in Hin as [[d' r'] [Heq Hin]]. simpl in Heq.
      injection Heq as <- <-.
      destruct (IH d' r' Hin) as [-> [_ Hd]].
      split; [reflexivity|]. split; [discriminate|]. constructor; assumption.
    + destruct Hin as [Heq|[]]. injection Heq as <- <-.
      split; [reflexivity|]. split; [discriminate|]. constructor; [assumption|constructor].
Qed.

Lemma branch_tail_sound (r b : pystr) :
  branch_tail r = Some b ->
  (r = b \/ r = b ++ [NEWLINE]) /\ exists x, x <> [] /\ b = x ++ FENJU.
Proof.
  unfold branch_tail. intros H.
  set (r' := match rev r with
             | c :: t => if c =? NEWLINE then rev t else r
             | [] => r
             end) in H.
  destruct (Nat.leb 3 (length r') && prefixb (rev FENJU) (rev r')
            && negb (existsb (Z.eqb NEWLINE) r')) eqn:Hc; [|discriminate].
  injection H as <-.
  apply andb_true_iff in Hc as [Hc _]. apply andb_true_iff in Hc as [Hlen Hpre].
  split.
  - subst r'. destruct (rev r) as [|c t] eqn:Hr; [left; reflexivity|].
    destruct (c =? NEWLINE) eqn:Hn; [|left; reflexivity].
    right. apply Z.eqb_eq in Hn. subst c.
    rewrite <- (rev_involutive r), Hr. reflexivity.
  - apply prefixb_spec in Hpre as [x Hx].
    exists (rev x). split.
    + intros Hnil. apply (f_equal (@rev Z)) in Hnil. rewrite rev_involutive in Hnil.
      subst x. rewrite app_nil_r in Hx.
      apply (f_equal (@length Z)) in Hx. rewrite length_rev in Hx.
      apply Nat.leb_le in Hlen. rewrite Hx in Hlen. simpl in Hlen. lia.
    + rewrite <- (rev_involutive r'), Hx, rev_app_distr, rev_involutive. reflexivity.
Qed.

(** A terminal line is [<digits><text ending in 分局>], possibly followed
    by one final newline. *)
Lemma cap_branch_match_sound (line d b : pystr) :
  cap_branch_match line = Some (d, b) ->
  d <> [] /\ Forall (fun c => is_digit c = true) d /\
  (line = d ++ b \/ line = d ++ b ++ [NEWLINE]) /\
  exists x, x <> [] /\ b = x ++ FENJU.
Proof.
  unfold cap_branch_match.
  assert (Hsub : forall cs, (forall d r, In (d, r) cs -> In (d, r) (digit_splits line)) ->
    (fix first (cs : list (pystr * pystr)) :=
       match cs with
       | [] => None
       | (d, r) :: cs' => match branch_tail r with Some b => Some (d, b) | None => first cs' end
       end) cs = Some (d, b) ->
    exists r, In (d, r) (digit_splits line) /\ branch_tail r = Some b).
  { induction cs as [|[d0 r0] cs IH]; intros Hin H; [discriminate|].
    destruct (branch_tail r0) as [b0|] eqn:Hb.
    - injection H as <- <-. exists r0. split; [apply Hin; left; reflexivity|exact Hb].
    - apply IH; [intros ? ? Hi; apply Hin; right; exact Hi|exact H]. }
  intros H. destruct (Hsub _ (fun _ _ h => h) H) as [r [Hin Hb]].
  destruct (digit_splits_sound _ _ _ Hin) as [-> [Hne Hd]].
  destruct (branch_tail_sound _ _ Hb) as [[-> | ->] Hx].
  - split; [exact Hne|]. split; [exact Hd|]. split; [left; reflexivity|exact Hx].
  - split; [exact Hne|]. split; [exact Hd|]. split; [right; reflexivity|exact Hx].
Qed.

(** *** Splitting the pending lines into name and address *)

Definition addr_ok (ap : list pystr) : Prop :=
  ap = [] \/ exists e rest, ap = e :: rest /\ startswith e TAINAN = true.

Lemma split_step_addr_ok (acc : list pystr * list pystr) (e : pystr) :
  addr_ok (snd acc) -> addr_ok (snd (split_step acc e)).
Proof.
  destruct acc as [np ap]. unfold split_step. cbn [snd]. intros [->|[e0 [r [-> H]]]].
  - change (negb (is_nil (@nil pystr))) with false. rewrite orb_false_r.
    destruct (startswith e TAINAN) eqn:He; cbn [snd].
    + right. exists e, []. split; [reflexivity|exact He].
    + left. reflexivity.
  - change (negb (is_nil (e0 :: r))) with true. rewrite orb_true_r. cbn [snd].
    right. exists e0, (r ++ [e]). split; [reflexivity|exact H].
Qed.

Lemma split_fold_addr_ok (pending : list pystr) (acc : list pystr * list pystr) :
  addr_ok (snd acc) -> addr_ok (snd (fold_left split_step pending acc)).
Proof.
  revert acc; induction pending as [|e p IH]; intros acc H; simpl; auto.
  apply IH, split_step_addr_ok, H.
Qed.

Lemma split_fold_nonempty (pending : list pystr) (acc : list pystr * list pystr) :
  snd acc <> [] -> snd (fold_left split_step pending acc) <> [].
Proof.
  revert acc; induction pending as [|e p IH]; intros [np ap] H; simpl; auto.
  apply IH. unfold split_step.
  destruct (startswith e TAINAN || negb (is_nil ap)); simpl.
  - intros Hn. apply app_eq_nil in Hn as [_ Hn]. discriminate.
  - exact H.
Qed.

Lemma split_fold_found (pending : list pystr) (acc : list pystr * list pystr) :
  Exists (fun e => startswith e TAINAN = true) pending ->
  snd (fold_left split_step pending acc) <> [].
Proof.
  revert acc; induction pending as [|e p IH]; intros [np ap] H; simpl.
  - inversion H.
  - inversion H as [? ? He|? ? Hp]; subst.
    + apply split_fold_nonempty. unfold split_step. rewrite He. simpl.
      intros Hn. apply app_eq_nil in Hn as [_ Hn]. discriminate.
    + apply IH, Hp.
Qed.

Lemma split_fold_none (pending : list pystr) (np : list pystr) :
  Forall (fun e => startswith e TAINAN = false) pending ->
  snd (fold_left split_step pending (np, [])) = [].
Proof.
  revert np; induction pending as [|e p IH]; intros np H; simpl; auto.
  inversion H as [|? ? He Hp]; subst.
  rewrite He. apply IH, Hp.
Qed.

(** The address of a closed record is empty or starts with [臺南市]. *)
Lemma close_record_address (pending : list pystr) (d b : pystr) :
  fac_address (close_record pending d b) = [] \/
  startswith (fac_address (close_record pending d b)) TAINAN = true.
Proof.
  unfold close_record.
  pose proof (split_fold_addr_ok pending ([], []) (or_introl eq_refl)) as H.
  unfold split_pending. destruct (fold_left split_step pending ([], [])) as [np ap].
  simpl in *. destruct H as [->|[e [rest [-> He]]]].
  - left. reflexivity.
  - right. apply prefixb_spec in He as [t ->]. cbn [fac_address concat].
    rewrite <- app_assoc. apply strip_keeps_prefix; [discriminate|apply TAINAN_nonspace].
Qed.

Lemma parse_fold_addresses (lines : list pystr) (st : list Facility * list pystr) :
  Forall (fun f => fac_address f = [] \/ startswith (fac_address f) TAINAN = true) (fst st) ->
  Forall (fun f => fac_address f = [] \/ startswith (fac_address f) TAINAN = true)
    (fst (fold_left pf_step lines st)).
Proof.
  revert st; induction lines as [|l ls IH]; intros [facs pending] H; simpl; auto.
  apply IH. unfold pf_step. destruct (cap_branch_match l) as [[d b]|]; simpl in *; auto.
  apply Forall_app; split; auto. constructor; [apply close_record_address|constructor].
Qed.

Lemma parse_fold_no_terminal (lines : list pystr) (st : list Facility * list pystr) :
  Forall (fun l => cap_branch_match l = None) lines ->
  fst (fold_left pf_step lines st) = fst st.
Proof.
  revert st; induction lines as [|l ls IH]; intros [facs pending] H; simpl; auto.
  inversion H as [|? ? Hl Hls]; subst.
  rewrite IH by exact Hls. unfold pf_step. rewrite Hl. reflexivity.
Qed.

End ExtractFacilitiesFacts.

Module SheltersFacts.
Import Shelters.

Lemma find_idx_prefix (s p : pystr) (i : nat) :
  find_idx s p = Some i -> prefixb p (drop i s) = true.
Proof.
  revert i; induction s as [|c s IH]; intros i H; simpl in H.
  - destruct (prefixb p []) eqn:Hp; [injection H as <-; exact Hp|discriminate].
  - destruct (prefixb p (c :: s)) eqn:Hp; [injection H as <-; exact Hp|].
    destruct (find_idx s p) as [k|] eqn:Hk; [|discriminate].
    simpl in H. injection H as <-. simpl. apply IH. reflexivity.
Qed.

(** What [_parse_entry] returns when it succeeds. *)
Lemma parse_entry_shape (entry : pystr) (r : Shelter) :
  _parse_entry entry = Some r ->
  sh_district r = XINSHI /\ sh_branch r = SHANHUA /\
  (sh_address r = [] \/ startswith (sh_address r) TAINAN = true).
Proof.
  unfold _parse_entry.
  destruct (search_capacity 0 entry) as [[start digits]|]; [|discriminate]. cbn.
  destruct (negb (startswith (take start entry) XINSHI)); [discriminate|].
  destruct (match_village (removeprefix (take start entry) XINSHI))
    as [[village details]|]; [|discriminate]. cbn.
  destruct (find_idx details TAINAN) as [i|] eqn:Hi; intros H; injection H as <-;
    cbn; split; try reflexivity; split; try reflexivity.
  - right. unfold startswith. apply find_idx_prefix, Hi.
  - left. reflexivity.
Qed.

Lemma parse_all_shape (entries : list pystr) (recs : list Shelter) :
  parse_all entries = Some recs ->
  Forall (fun r => sh_district r = XINSHI /\ sh_branch r = SHANHUA /\
                   (sh_address r = [] \/ startswith (sh_address r) TAINAN = true)) recs.
Proof.
  revert recs; induction entries as [|e es IH]; intros recs H; simpl in H.
  - injection H as <-. constructor.
  - destruct (_parse_entry e) as [r|] eqn:He; [|discriminate]. cbn in H.
    destruct (parse_all es) as [rs|]; [|discriminate]. cbn in H. injection H as <-.
    constructor; [exact (parse_entry_shape e r He)|apply IH; reflexivity].
Qed.

End SheltersFacts.

(** * The claims *)

Module DecodeFacts.
Import ExtractFacilities GenerateSite GenerateSites Samples.

Lemma hexval_hex_digit (d : Z) : 0 <= d < 16 -> hexval (hex_digit d) = Some d.
Proof.
  intros Hd.
  assert (d = 0 \/ d = 1 \/ d = 2 \/ d = 3 \/ d = 4 \/ d = 5 \/ d = 6 \/ d = 7 \/
          d = 8 \/ d = 9 \/ d = 10 \/ d = 11 \/ d = 12 \/ d = 13 \/ d = 14 \/ d = 15)
    as Hc by lia.
  repeat destruct Hc as [-> | Hc]; [reflexivity .. | subst; reflexivity].
Qed.

Lemma py_int16_hex4_encode (c : Z) : 0 <= c < 65536 -> py_int16 (hex4_encode c) = Some c.
Proof.
  intros Hc. unfold py_int16, hex4_encode. cbn [is_nil mapM].
  replace (c / 256) with (c / 16 / 16) by (rewrite !Z.div_div by lia; reflexivity).
  replace (c / 4096) with (c / 16 / 16 / 16) by (rewrite !Z.div_div by lia; reflexivity).
  assert (E1 := Z.div_mod c 16 ltac:(lia)).
  assert (E2 := Z.div_mod (c / 16) 16 ltac:(lia)).
  assert (E3 := Z.div_mod (c / 16 / 16) 16 ltac:(lia)).
  assert (B1 := Z.mod_pos_bound c 16 ltac:(lia)).
  assert (B2 := Z.mod_pos_bound (c / 16) 16 ltac:(lia)).
  assert (B3 := Z.mod_pos_bound (c / 16 / 16) 16 ltac:(lia)).
  assert (B4 : 0 <= c / 16 / 16 / 16 < 16).
  { rewrite !Z.div_div by lia. split; [apply Z.div_pos; lia | apply Z.div_lt_upper_bound; lia]. }
  rewrite !hexval_hex_digit by lia. cbn.
  f_equal. lia.
Qed.

Lemma chunks4_fuel_app (f : nat) (x r : pystr) :
  length x = 4%nat -> chunks4_fuel (S f) (x ++ r) = x :: chunks4_fuel f r.
Proof.
  intros Hx. destruct x as [|a [|b [|c [|d [|e x]]]]]; simpl in Hx; try lia.
  reflexivity.
Qed.

Lemma chunks4_fuel_hex4_encode (codes : list Z) (fuel : nat) :
  (length (concat (map hex4_encode codes)) <= fuel)%nat ->
  chunks4_fuel fuel (concat (map hex4_encode codes)) = map hex4_encode codes.
Proof.
  revert fuel. induction codes as [|c codes IH]; intros fuel Hf.
  - destruct fuel; reflexivity.
  - change (concat (map hex4_encode (c :: codes)))
      with (hex4_encode c ++ concat (map hex4_encode codes)) in *.
    rewrite length_app in Hf. change (length (hex4_encode c)) with 4%nat in Hf.
    destruct fuel as [|fuel]; [lia|].
    rewrite chunks4_fuel_app by reflexivity.
    cbn [map]. f_equal. apply IH. lia.
Qed.

Lemma chunks4_hex4_encode (codes : list Z) :
  chunks4 (concat (map hex4_encode codes)) = map hex4_encode codes.
Proof. apply chunks4_fuel_hex4_encode. lia. Qed.

(** [mapM] over a list whose every element succeeds. *)
Lemma mapM_Some_map {A B : Type} (f : A -> option B) (g : A -> B) (l : list A) :
  (forall x, In x l -> f x = Some (g x)) -> mapM f l = Some (map g l).
Proof.
  induction l as [|x l IH]; intros H; [reflexivity|].
  cbn [mapM map]. rewrite (H x (or_introl eq_refl)). cbn.
  rewrite IH by (intros y Hy; apply H; right; exact Hy). reflexivity.
Qed.

(** [mapM] over a list with an element that fails. *)
Lemma mapM_None_In {A B : Type} (f : A -> option B) (l : list A) (x : A) :
  In x l -> f x = None -> mapM f l = None.
Proof.
  induction l as [|y l IH]; intros Hin Hx; [destruct Hin|].
  cbn [mapM]. destruct Hin as [<- | Hin].
  - rewrite Hx. reflexivity.
  - destruct (f y); cbn; [rewrite IH by assumption|]; reflexivity.
Qed.

Lemma mapM_map {A B C : Type} (f : B -> option C) (h : A -> B) (l : list A) :
  mapM f (map h l) = mapM (fun x => f (h x)) l.
Proof.
  induction l as [|x l IH]; [reflexivity|].
  cbn [map mapM]. rewrite IH. reflexivity.
Qed.

Lemma hexval_nonneg (c v : Z) : hexval c = Some v -> 0 <= v.
Proof.
  unfold hexval, hexval_upper.
  destruct ((48 <=? c) && (c <=? 57)) eqn:E1.
  { intros H. injection H as <-. apply andb_true_iff in E1 as [E1 _].
    apply Z.leb_le in E1. lia. }
  destruct ((65 <=? c) && (c <=? 70)) eqn:E2.
  { intros H. injection H as <-. apply andb_true_iff in E2 as [E2 _].
    apply Z.leb_le in E2. lia. }
  destruct ((97 <=? c) && (c <=? 102)) eqn:E3; [|discriminate].
  intros H. injection H as <-. apply andb_true_iff in E3 as [E3 _].
  apply Z.leb_le in E3. lia.
Qed.

Lemma hex_value_nonneg (s : pystr) : 0 <= hex_value s.
Proof.
  unfold hex_value.
  enough (forall acc, 0 <= acc -> 0 <= fold_left (fun acc c => acc * 16 + default 0 (hexval c)) s acc)
    as H by (apply H; lia).
  induction s as [|c s IH]; intros a Ha; [exact Ha|].
  cbn [fold_left]. apply IH.
  destruct (hexval c) as [v|] eqn:Hv; cbn [default]; [unfold id; pose proof (hexval_nonneg c v Hv)|]; lia.
Qed.

Lemma py_chr_in_range (v : Z) : 0 <= v < 0x110000 -> py_chr v = Some v.
Proof.
  intros Hv. unfold py_chr.
  replace ((0 <=? v) && (v <? 0x110000)) with true; [reflexivity|].
  symmetry. apply andb_true_intro. split; [apply Z.leb_le | apply Z.ltb_lt]; lia.
Qed.

Lemma py_chr_out_of_range (v : Z) : 0x110000 <= v -> py_chr v = None.
Proof.
  intros Hv. unfold py_chr.
  replace (v <? 0x110000) with false by (symmetry; apply Z.ltb_ge; lia).
  rewrite andb_false_r. reflexivity.
Qed.

End DecodeFacts.

Module FilterFacts.
Import ExtractFacilities GenerateSite.
Local Arguments should_skip : simpl never.

Lemma should_skip_iff (line : pystr) :
  should_skip line = true <-> exists pattern, In pattern SKIP_PATTERNS /\ contains line pattern = true.
Proof. unfold should_skip. apply existsb_exists. Qed.

Lemma extract_lines_kept (zlib_decompress : pystr -> option pystr) (raw_pdf : pystr)
    (cmap : gmap Z Z) (lines : list pystr) :
  extract_lines zlib_decompress raw_pdf cmap = Some lines ->
  forall line, In line lines -> should_skip line = false.
Proof.
  unfold extract_lines. destruct (text_blocks zlib_decompress _ cmap); cbn; [|discriminate].
  intros E line Hin. injection E as <-.
  apply list_elem_of_In, list_elem_of_filter in Hin. destruct Hin as [Hk _].
  destruct (should_skip line); [destruct Hk | reflexivity].
Qed.

Lemma remove_headers_and_footers_aux_kept (sections : list pystr) (update_date : option pystr)
    (item : pystr) :
  In item (fst (remove_headers_and_footers_aux sections update_date)) <->
  In item sections /\ existsb (fun key => contains item key) HEADER_KEYS = false /\
  contains item UPDATED = false.
Proof.
  revert update_date. induction sections as [|x sections IH]; intros update_date.
  - cbn. tauto.
  - cbn [remove_headers_and_footers_aux In].
    destruct (existsb (fun key => contains x key) HEADER_KEYS) eqn:Hk.
    + rewrite IH. split; [tauto|].
      intros [[<- | Hin] [Hk' Hu]]; [congruence | tauto].
    + destruct (contains x UPDATED) eqn:Hu.
      * rewrite IH. split; [tauto|].
        intros [[<- | Hin] [Hk' Hu']]; [congruence | tauto].
      * destruct (remove_headers_and_footers_aux sections update_date) as [filtered ud] eqn:E.
        cbn [fst In]. specialize (IH update_date). rewrite E in IH. cbn [fst] in IH.
        rewrite IH. split.
        -- intros [<- | H]; [tauto | tauto].
        -- intros [[<- | Hin] H]; [left; reflexivity | right; tauto].
Qed.

End FilterFacts.

Module StreamFacts.
Import ExtractFacilities Shelters GenerateSite BuildSites GenerateSites.

Section WithZlib.
Variable zlib_decompress : pystr -> option pystr.

Lemma decompress_segments_skip (pre post : list (option pystr)) (seg : pystr) :
  zlib_decompress (strip_chars CRLF seg) = None ->
  decompress_segments zlib_decompress (pre ++ Some seg :: post) =
  decompress_segments zlib_decompress (pre ++ post).
Proof.
  intros Hz. induction pre as [|[s|] pre IH]; cbn [app decompress_segments].
  - rewrite Hz. reflexivity.
  - destruct (zlib_decompress (strip_chars CRLF s)); rewrite IH; reflexivity.
  - exact IH.
Qed.

Lemma text_runs_of_segments_skip (pre post : list (option pystr)) (seg : pystr)
    (mapping : gmap Z Z) :
  zlib_decompress (strip_chars CRLF seg) = None ->
  text_runs_of_segments zlib_decompress (pre ++ Some seg :: post) mapping =
  text_runs_of_segments zlib_decompress (pre ++ post) mapping.
Proof.
  intros Hz. induction pre as [|[s|] pre IH]; cbn [app text_runs_of_segments].
  - rewrite Hz. reflexivity.
  - destruct (zlib_decompress (strip_chars CRLF s)); [|exact IH].
    rewrite IH. reflexivity.
  - exact IH.
Qed.

Lemma decode_segments_skip (pre post : list (option pystr)) (seg : pystr)
    (mapping : gmap Z Z) :
  zlib_decompress seg = None ->
  decode_segments zlib_decompress (pre ++ Some seg :: post) mapping =
  decode_segments zlib_decompress (pre ++ post) mapping.
Proof.
  intros Hz. induction pre as [|[s|] pre IH]; cbn [app decode_segments].
  - rewrite Hz. reflexivity.
  - destruct (zlib_decompress s); [|exact IH].
    rewrite IH. reflexivity.
  - exact IH.
Qed.

Lemma streams_of_segments_keep (pre post : list (option pystr)) (seg : pystr) :
  zlib_decompress (strip_chars CRLF seg) = None ->
  streams_of_segments zlib_decompress (pre ++ Some seg :: post) =
  streams_of_segments zlib_decompress pre ++ strip_chars CRLF seg
    :: streams_of_segments zlib_decompress post.
Proof.
  intros Hz. induction pre as [|[s|] pre IH]; cbn [app streams_of_segments].
  - rewrite Hz. reflexivity.
  - destruct (zlib_decompress (strip_chars CRLF s)); rewrite IH; reflexivity.
  - exact IH.
Qed.

End WithZlib.

End StreamFacts.

Module CMapFacts.
Import ExtractFacilities Shelters GenerateSite.

Lemma fold_insert_empty (l : list (Z * Z)) (m : gmap Z Z) :
  fold_left (fun (m : gmap Z Z) (cv : Z * Z) => <[fst cv := snd cv]> m) l m = ∅ ->
  l = [] /\ m = ∅.
Proof.
  revert m. induction l as [|cv l IH]; intros m H; [split; [reflexivity | exact H]|].
  cbn [fold_left] in H. destruct (IH _ H) as [_ Hm].
  exfalso. exact (insert_non_empty m (fst cv) (snd cv) Hm).
Qed.

Lemma load_cmap_mapping_none (raw_pdf : pystr) :
  _load_cmap_mapping raw_pdf = None <->
  search_cmap_block raw_pdf = None \/
  exists block, search_cmap_block raw_pdf = Some block /\ findall m_pair_sp block = [].
Proof.
  unfold _load_cmap_mapping. destruct (search_cmap_block raw_pdf) as [block|]; cbn.
  - case_bool_decide as Hm.
    + split; [intros _; right; exists block; split; [reflexivity|] | reflexivity].
      exact (proj1 (fold_insert_empty _ _ Hm)).
    + split; [discriminate|].
      intros [H | [b [Hb Hp]]]; [discriminate|]. injection Hb as <-.
      exfalso. apply Hm. rewrite Hp. reflexivity.
  - split; [intros _; left; reflexivity | reflexivity].
Qed.

Lemma extract_shelters_cmap_none (zlib_decompress : pystr -> option pystr) (raw_pdf : pystr) :
  _load_cmap_mapping raw_pdf = None -> extract_shelters zlib_decompress raw_pdf = None.
Proof. intros H. unfold extract_shelters. rewrite H. reflexivity. Qed.

Lemma extract_facilities_rows_empty (zlib_decompress : pystr -> option pystr) (pdf_bytes : pystr) :
  build_cmap (extract_streams zlib_decompress pdf_bytes) = ∅ ->
  extract_facilities_rows zlib_decompress pdf_bytes = None.
Proof.
  intros H. unfold extract_facilities_rows. rewrite H.
  rewrite bool_decide_eq_true_2 by reflexivity. reflexivity.
Qed.

End CMapFacts.

Module SlugFacts.
Import ExtractFacilities GenerateSites.

Definition is_ascii_digit (c : Z) : Prop := 48 <= c <= 57.

Lemma digit_value_ascii (d : Z) : 0 <= d < 10 -> digit_value (48 + d) = d.
Proof.
  intros Hd.
  assert (d = 0 \/ d = 1 \/ d = 2 \/ d = 3 \/ d = 4 \/ d = 5 \/ d = 6 \/ d = 7 \/
          d = 8 \/ d = 9) as Hc by lia.
  repeat destruct Hc as [-> | Hc]; [reflexivity .. | subst; reflexivity].
Qed.

Lemma py_int_snoc (l : pystr) (x : Z) : py_int (l ++ [x]) = py_int l * 10 + digit_value x.
Proof. unfold py_int. rewrite fold_left_app. reflexivity. Qed.

Lemma digits_rev_spec (fuel : nat) (n : Z) :
  0 <= n < Z.of_nat fuel ->
  py_int (rev (digits_rev fuel n)) = n /\ Forall is_ascii_digit (digits_rev fuel n).
Proof.
  revert n. induction fuel as [|fuel IH]; intros n Hn; [lia|].
  cbn [digits_rev]. destruct (Z.ltb_spec n 10) as [Hlt | Hge].
  - split.
    + change (rev [48 + n]) with ([] ++ [48 + n]).
      rewrite py_int_snoc, digit_value_ascii by lia. reflexivity.
    + constructor; [unfold is_ascii_digit; lia | constructor].
  - assert (Hm := Z.mod_pos_bound n 10 ltac:(lia)).
    assert (Hdm := Z.div_mod n 10 ltac:(lia)).
    assert (Hq : 0 <= n / 10 < Z.of_nat fuel).
    { split; [apply Z.div_pos; lia|].
      assert (n / 10 < n) by (apply Z.div_lt; lia). lia. }
    destruct (IH (n / 10) Hq) as [Hv Hd].
    split.
    + cbn [rev]. rewrite py_int_snoc, Hv, digit_value_ascii by lia. lia.
    + constructor; [unfold is_ascii_digit; lia | exact Hd].
Qed.

Lemma py_str_spec (n : Z) :
  0 <= n -> py_int (py_str n) = n /\ Forall is_ascii_digit (py_str n).
Proof.
  intros Hn. unfold py_str.
  destruct (digits_rev_spec (S (Z.to_nat n)) n ltac:(lia)) as [Hv Hd].
  split; [exact Hv | apply Forall_rev; exact Hd].
Qed.

Lemma py_str_inj (a b : Z) : 0 <= a -> 0 <= b -> py_str a = py_str b -> a = b.
Proof.
  intros Ha Hb E.
  rewrite <- (proj1 (py_str_spec a Ha)), <- (proj1 (py_str_spec b Hb)), E. reflexivity.
Qed.

Lemma py_int_zeros (k : nat) (s : pystr) : py_int (repeat 48 k ++ s) = py_int s.
Proof.
  unfold py_int. rewrite fold_left_app. f_equal.
  induction k as [|k IH]; [reflexivity|].
  cbn [repeat fold_left]. exact IH.
Qed.

Lemma pad3_spec (n : Z) : 0 <= n -> py_int (pad3 n) = n /\ Forall is_ascii_digit (pad3 n).
Proof.
  intros Hn. destruct (py_str_spec n Hn) as [Hv Hd]. unfold pad3. split.
  - rewrite py_int_zeros. exact Hv.
  - apply Forall_app. split; [|exact Hd].
    apply Forall_forall. intros x Hx. apply list_elem_of_In, repeat_spec in Hx. subst x.
    unfold is_ascii_digit. lia.
Qed.

(** Two digit strings, each followed by nothing or by a [-], are equal
    when the concatenations are. *)
Lemma digits_app_inv (d1 d2 t1 t2 : pystr) :
  Forall is_ascii_digit d1 -> Forall is_ascii_digit d2 ->
  (t1 = [] \/ exists r, t1 = 45 :: r) -> (t2 = [] \/ exists r, t2 = 45 :: r) ->
  d1 ++ t1 = d2 ++ t2 -> d1 = d2.
Proof.
  revert d2. induction d1 as [|a d1 IH]; intros d2 H1 H2 T1 T2 E.
  - destruct d2 as [|b d2]; [reflexivity|]. exfalso.
    inversion H2 as [|? ? Hb]; subst. unfold is_ascii_digit in Hb.
    destruct T1 as [-> | [r ->]]; cbn in E; [discriminate|].
    injection E as Eb _. lia.
  - destruct d2 as [|b d2].
    + exfalso. inversion H1 as [|? ? Ha]; subst. unfold is_ascii_digit in Ha.
      destruct T2 as [-> | [r ->]]; cbn in E; [discriminate|].
      injection E as Ea _. lia.
    + cbn in E. injection E as -> E.
      inversion H1; inversion H2; subst. f_equal. apply IH; assumption.
Qed.

Lemma slugify_shape (sequence : Z) (name : pystr) :
  exists t, slugify sequence name = asc "facility-" ++ pad3 sequence ++ t /\
            (t = [] \/ exists r, t = 45 :: r).
Proof.
  unfold slugify. destruct (is_nil _).
  - exists []. split; [rewrite app_assoc, app_nil_r; reflexivity | left; reflexivity].
  - eexists. split; [rewrite <- app_assoc; reflexivity | right; eexists; reflexivity].
Qed.

Lemma slugify_inj (a b : Z) (n1 n2 : pystr) :
  0 <= a -> 0 <= b -> slugify a n1 = slugify b n2 -> a = b.
Proof.
  intros Ha Hb E.
  destruct (slugify_shape a n1) as [t1 [E1 T1]], (slugify_shape b n2) as [t2 [E2 T2]].
  rewrite E1, E2 in E. apply app_inv_head in E.
  destruct (pad3_spec a Ha) as [Va Da], (pad3_spec b Hb) as [Vb Db].
  assert (Ep : pad3 a = pad3 b) by (exact (digits_app_inv _ _ _ _ Da Db T1 T2 E)).
  rewrite <- Va, <- Vb, Ep. reflexivity.
Qed.

Lemma main_slugs_NoDup (facilities : list Facility) : NoDup (main_slugs facilities).
Proof.
  apply NoDup_alt. intros i j x Hi Hj. unfold main_slugs in Hi, Hj.
  rewrite list_lookup_imap in Hi, Hj.
  destruct (facilities !! i) as [fi|]; [|discriminate].
  destruct (facilities !! j) as [fj|]; [|discriminate].
  injection Hi as Hi. injection Hj as Hj. rewrite <- Hj in Hi.
  apply slugify_inj in Hi; lia.
Qed.

Section Slugs.
Variable isalnum : Z -> bool.
Hypothesis isalnum_dash : isalnum 45 = false.

Definition slug_count (b : pystr) (names : list pystr) : nat :=
  length (filter (fun n => base_slug isalnum n = b) names).

Lemma base_slug_no_dash (name : pystr) : ~ In 45 (base_slug isalnum name).
Proof.
  unfold base_slug. destruct (is_nil _).
  - cbn. intuition discriminate.
  - intros Hin. apply list_elem_of_In, list_elem_of_filter in Hin.
    destruct Hin as [Ha _]. rewrite isalnum_dash in Ha. exact Ha.
Qed.

Lemma assign_slugs_length (names : list pystr) (m : gmap pystr Z) :
  length (assign_slugs isalnum names m) = length names.
Proof.
  revert m. induction names as [|x names IH]; intros m; [reflexivity|].
  cbn [assign_slugs length]. rewrite IH. reflexivity.
Qed.

Lemma assign_slugs_lookup (names : list pystr) (m : gmap pystr Z) (i : nat) (name : pystr) :
  names !! i = Some name ->
  assign_slugs isalnum names m !! i =
    Some (let b := base_slug isalnum name in
          let k := default 0 (m !! b) + Z.of_nat (slug_count b (take (S i) names)) in
          if k =? 1 then b else b ++ [45] ++ py_str k).
Proof.
  revert m i. induction names as [|x names IH]; intros m i H; [discriminate|].
  destruct i as [|i].
  - injection H as <-. cbn [assign_slugs firstn].
    assert (Hc : slug_count (base_slug isalnum x) [x] = 1%nat).
    { unfold slug_count. rewrite filter_cons_True by reflexivity. reflexivity. }
    change (take 0 names) with (@nil pystr). rewrite Hc. reflexivity.
  - cbn [assign_slugs]. change ((?a :: ?l) !! S i) with (l !! i).
    rewrite (IH _ i H). cbn zeta. f_equal.
    set (b := base_slug isalnum name). set (bx := base_slug isalnum x).
    assert (Hk : default 0 (<[bx := default 0 (m !! bx) + 1]> m !! b)
                   + Z.of_nat (slug_count b (take (S i) names)) =
                 default 0 (m !! b) + Z.of_nat (slug_count b (take (S (S i)) (x :: names)))).
    { cbn [firstn]. unfold slug_count. destruct (decide (bx = b)) as [<- | Hne].
      - rewrite lookup_insert_eq, filter_cons_True by reflexivity. cbn [default length]. unfold id. lia.
      - rewrite lookup_insert_ne by exact Hne.
        rewrite filter_cons_False by exact Hne. reflexivity. }
    rewrite Hk. reflexivity.
Qed.

Lemma slug_count_app (b : pystr) (l1 l2 : list pystr) :
  slug_count b (l1 ++ l2) = (slug_count b l1 + slug_count b l2)%nat.
Proof. unfold slug_count. rewrite filter_app, length_app. reflexivity. Qed.

Lemma slug_count_pos (b x : pystr) (l : list pystr) :
  x ∈ l -> base_slug isalnum x = b -> (0 < slug_count b l)%nat.
Proof.
  intros Hx Hb. unfold slug_count.
  assert (Hf : x ∈ filter (fun n => base_slug isalnum n = b) l)
    by (apply list_elem_of_filter; split; assumption).
  destruct (filter _ l); [inversion Hf | cbn; lia].
Qed.

Lemma slug_count_lt (names : list pystr) (i j : nat) (ni nj : pystr) :
  (i < j)%nat -> names !! i = Some ni -> names !! j = Some nj ->
  base_slug isalnum ni = base_slug isalnum nj ->
  (0 < slug_count (base_slug isalnum ni) (take (S i) names) <
   slug_count (base_slug isalnum ni) (take (S j) names))%nat.
Proof.
  intros Hij Hi Hj Hb.
  assert (E : take (S j) names = take (S i) names ++ take (j - i) (drop (S i) names)).
  { rewrite take_take_drop. f_equal. lia. }
  assert (Hin_i : ni ∈ take (S i) names).
  { apply list_elem_of_lookup_2 with i. rewrite lookup_take, decide_True by lia. exact Hi. }
  assert (Hin_j : nj ∈ take (j - i) (drop (S i) names)).
  { apply list_elem_of_lookup_2 with (j - S i)%nat.
    rewrite lookup_take, decide_True by lia. rewrite lookup_drop.
    replace (S i + (j - S i))%nat with j by lia. exact Hj. }
  rewrite E, slug_count_app.
  pose proof (slug_count_pos _ _ _ Hin_i eq_refl).
  pose proof (slug_count_pos _ _ _ Hin_j (eq_sym Hb)). lia.
Qed.

(** The rendered slug determines its base and its counter. *)
Lemma render_inj (b1 b2 : pystr) (k1 k2 : Z) :
  ~ In 45 b1 -> ~ In 45 b2 -> 1 <= k1 -> 1 <= k2 ->
  (if k1 =? 1 then b1 else b1 ++ [45] ++ py_str k1) =
  (if k2 =? 1 then b2 else b2 ++ [45] ++ py_str k2) ->
  b1 = b2 /\ k1 = k2.
Proof.
  intros N1 N2 K1 K2 E.
  destruct (Z.eqb_spec k1 1) as [-> | H1], (Z.eqb_spec k2 1) as [-> | H2].
  - split; [exact E | reflexivity].
  - exfalso. apply N1. rewrite E. apply in_or_app. right. left. reflexivity.
  - exfalso. apply N2. rewrite <- E. apply in_or_app. right. left. reflexivity.
  - assert (Eb : b1 = b2).
    { clear K1 K2 H1 H2. revert b2 N2 E. induction b1 as [|a b1 IH]; intros b2 N2 E.
      - destruct b2 as [|c b2]; [reflexivity|]. cbn in E. injection E as Ec _.
        exfalso. apply N2. left. symmetry. exact Ec.
      - destruct b2 as [|c b2]; cbn in E; injection E as Ea E.
        + exfalso. apply N1. left. exact Ea.
        + subst c. f_equal. apply IH; [intros H; apply N1; right; exact H |
                                       intros H; apply N2; right; exact H | exact E]. }
    subst b2. apply app_inv_head in E. injection E as E.
    split; [reflexivity | apply py_str_inj; [lia | lia | exact E]].
Qed.

Lemma assign_slugs_distinct_lt (names : list pystr) (i j : nat) (x : pystr) :
  (i < j)%nat -> assign_slugs isalnum names ∅ !! i = Some x ->
  assign_slugs isalnum names ∅ !! j = Some x -> False.
Proof.
  intros Hij Hi Hj.
  assert (Hli := lookup_lt_Some _ _ _ Hi). assert (Hlj := lookup_lt_Some _ _ _ Hj).
  rewrite assign_slugs_length in Hli, Hlj.
  destruct (lookup_lt_is_Some_2 names i Hli) as [ni Hni].
  destruct (lookup_lt_is_Some_2 names j Hlj) as [nj Hnj].
  rewrite (assign_slugs_lookup names ∅ i ni Hni) in Hi.
  rewrite (assign_slugs_lookup names ∅ j nj Hnj) in Hj.
  cbn zeta in Hi, Hj. rewrite !lookup_empty in Hi, Hj. cbn [default] in Hi, Hj.
  rewrite <- Hj in Hi. injection Hi as Hi.
  assert (Pi := slug_count_pos (base_slug isalnum ni) ni (take (S i) names)
                  ltac:(apply list_elem_of_lookup_2 with i; rewrite lookup_take, decide_True by lia; exact Hni)
                  eq_refl).
  assert (Pj := slug_count_pos (base_slug isalnum nj) nj (take (S j) names)
                  ltac:(apply list_elem_of_lookup_2 with j; rewrite lookup_take, decide_True by lia; exact Hnj)
                  eq_refl).
  apply render_inj in Hi as [Hb Hk];
    [| apply base_slug_no_dash | apply base_slug_no_dash | lia | lia].
  rewrite Hb in Hk.
  pose proof (slug_count_lt names i j ni nj Hij Hni Hnj Hb) as Hlt.
  rewrite Hb in Hlt. lia.
Qed.

End Slugs.

End SlugFacts.

(** ** Facts about the record count of [parse_facilities], the CMap range and array loops of [load_cmap] and the length of [decode_hex_string] *)

Module ParseFacts.
Import ExtractFacilities ExtractFacilitiesFacts DecodeFacts.

Lemma pf_fold_length (lines : list pystr) (st : list Facility * list pystr) :
  length (fst (fold_left pf_step lines st)) =
  (length (fst st) + length (filter (fun l => is_Some (cap_branch_match l)) lines))%nat.
Proof.
  revert st. induction lines as [|l lines IH]; intros [fs p]; cbn [fold_left].
  - cbn. lia.
  - rewrite IH. unfold pf_step at 1. destruct (cap_branch_match l) as [[d b]|] eqn:E.
    + rewrite filter_cons_True by (rewrite E; eauto). cbn [fst]. rewrite length_app. cbn. lia.
    + rewrite filter_cons_False by (rewrite E; intros [? H]; discriminate). reflexivity.
Qed.

Lemma fold_seq_snoc {A} (f : A -> nat -> A) (n : nat) (a : A) :
  fold_left f (seq 0 (S n)) a = f (fold_left f (seq 0 n) a) n.
Proof. rewrite seq_S, fold_left_app. reflexivity. Qed.

Lemma set_range_fold (m : gmap Z Z) (start base k : Z) (n : nat) :
  fold_left (fun m offset => <[start + Z.of_nat offset := base + Z.of_nat offset]> m)
    (seq 0 n) m !! k =
  if bool_decide (start <= k < start + Z.of_nat n) then Some (base + (k - start)) else m !! k.
Proof.
  induction n as [|n IH].
  - cbn. case_bool_decide; [lia|reflexivity].
  - rewrite fold_seq_snoc. destruct (decide (k = start + Z.of_nat n)) as [->|Hk].
    + rewrite lookup_insert_eq, bool_decide_true by lia. f_equal. lia.
    + rewrite lookup_insert_ne by lia. rewrite IH.
      case_bool_decide; case_bool_decide; try reflexivity; lia.
Qed.

Lemma set_array_fold (m : gmap Z Z) (start k : Z) (entries : list Z) (n : nat) :
  fold_left (fun m offset =>
               match entries !! offset with
               | Some v => <[start + Z.of_nat offset := v]> m
               | None => m
               end) (seq 0 n) m !! k =
  if bool_decide (start <= k < start + Z.of_nat n)
  then match entries !! Z.to_nat (k - start) with Some v => Some v | None => m !! k end
  else m !! k.
Proof.
  induction n as [|n IH].
  - cbn. case_bool_decide; [lia|reflexivity].
  - rewrite fold_seq_snoc. destruct (decide (k = start + Z.of_nat n)) as [->|Hk].
    + replace (Z.to_nat (start + Z.of_nat n - start)) with n by lia.
      rewrite bool_decide_true by lia.
      destruct (entries !! n) as [v|] eqn:E.
      * apply lookup_insert_eq.
      * rewrite IH, bool_decide_false by lia. reflexivity.
    + transitivity (fold_left (fun m offset =>
               match entries !! offset with
               | Some v => <[start + Z.of_nat offset := v]> m
               | None => m
               end) (seq 0 n) m !! k).
      { destruct (entries !! n); [apply lookup_insert_ne; lia|reflexivity]. }
      rewrite IH. case_bool_decide; case_bool_decide; try reflexivity; lia.
Qed.

Lemma mapM_length_Some {A B : Type} (f : A -> option B) (l : list A) (l' : list B) :
  mapM f l = Some l' -> length l' = length l.
Proof.
  revert l'. induction l as [|x l IH]; intros l' H; cbn in H.
  - injection H as <-. reflexivity.
  - destruct (f x) as [y|]; cbn in H; [|discriminate].
    destruct (mapM f l) as [ys|] eqn:E; cbn in H; [|discriminate].
    injection H as <-. cbn. rewrite (IH ys eq_refl). reflexivity.
Qed.

Lemma chunks4_fuel_length (fuel : nat) (s : pystr) :
  (length s <= fuel)%nat -> length (chunks4_fuel fuel s) = ((length s + 3) / 4)%nat.
Proof.
  revert s. induction fuel as [|fuel IH]; intros s Hs.
  - destruct s; [reflexivity|cbn in Hs; lia].
  - destruct s as [|c s']; [reflexivity|].
    cbn [chunks4_fuel length]. rewrite IH by (rewrite length_drop; cbn in *; lia).
    rewrite length_drop. cbn [length].
    destruct (decide (length s' < 4)%nat).
    + replace (S (length s') - 4)%nat with 0%nat by lia.
      replace (S (length s') + 3)%nat with (1 * 4 + (length s'))%nat by lia.
      rewrite Nat.div_add_l by lia. rewrite (Nat.div_small (length s')) by lia. reflexivity.
    + replace (S (length s') + 3)%nat with (1 * 4 + (S (length s') - 4 + 3))%nat by lia.
      rewrite Nat.div_add_l by lia. reflexivity.
Qed.

End ParseFacts.

(** ** Facts about maps built by a left fold of insertions *)

Module MappingFacts.
Import ExtractFacilities Shelters GenerateSite.

Lemma fold_insert_lookup (l : list (Z * Z)) (m : gmap Z Z) (k v : Z) :
  fold_left (fun (m : gmap Z Z) (cv : Z * Z) => <[fst cv := snd cv]> m) l m !! k = Some v <->
  (exists pre post, l = pre ++ (k, v) :: post /\ Forall (fun p => fst p <> k) post) \/
  (m !! k = Some v /\ Forall (fun p => fst p <> k) l).
Proof.
  induction l as [|[a b] l IH] using rev_ind.
  - cbn. split.
    + intros H. right. auto.
    + intros [[pre [post [E _]]]|[H _]]; [|exact H]. destruct pre; discriminate.
  - rewrite fold_left_app. cbn [fold_left fst snd]. destruct (decide (a = k)) as [->|Hne].
    + rewrite lookup_insert_eq. split.
      * intros [= <-]. left. exists l, []. split; [reflexivity|constructor].
      * intros [[pre [post [E F]]]|[_ F]].
        -- destruct post as [|q post] using rev_ind.
           ++ apply app_inj_tail in E as [_ Heq]. injection Heq as ->. reflexivity.
           ++ rewrite app_comm_cons, app_assoc in E. apply app_inj_tail in E as [_ <-].
              apply Forall_app in F as [_ F]. inversion F; subst. cbn in *. congruence.
        -- apply Forall_app in F as [_ F]. inversion F; subst. cbn in *. congruence.
    + rewrite lookup_insert_ne by exact Hne. rewrite IH. split.
      * intros [[pre [post [E F]]]|[H F]].
        -- left. exists pre, (post ++ [(a, b)]). split.
           ++ rewrite E, <- app_assoc. reflexivity.
           ++ apply Forall_app. split; [exact F|constructor; [exact Hne|constructor]].
        -- right. split; [exact H|]. apply Forall_app. split; [exact F|].
           constructor; [exact Hne|constructor].
      * intros [[pre [post [E F]]]|[H F]].
        -- left. destruct post as [|q post] using rev_ind.
           ++ apply app_inj_tail in E as [_ Heq]. injection Heq as -> _. congruence.
           ++ rewrite app_comm_cons, app_assoc in E. apply app_inj_tail in E as [-> <-].
              exists pre, post. split; [reflexivity|]. apply Forall_app in F as [F _]. exact F.
        -- right. split; [exact H|]. apply Forall_app in F as [F _]. exact F.
Qed.

End MappingFacts.

(** ** Facts about [str.strip] *)

Module StripFacts.
Import ExtractFacilities Shelters GenerateSite.

Lemma lstrip_ws_suffix (s : pystr) : exists p, s = p ++ lstrip_ws s.
Proof.
  induction s as [|c s [p Hp]]; [exists []; reflexivity|].
  cbn. destruct (is_space c).
  - exists (c :: p). rewrite Hp at 1. reflexivity.
  - exists []. reflexivity.
Qed.

Lemma lstrip_ws_head (s : pystr) (c : Z) (t : pystr) :
  lstrip_ws s = c :: t -> is_space c = false.
Proof.
  induction s as [|d s IH]; cbn; [discriminate|].
  destruct (is_space d) eqn:E; [exact IH|]. intros [= -> _]. exact E.
Qed.

Lemma lstrip_ws_id (s : pystr) :
  (forall c t, s = c :: t -> is_space c = false) -> lstrip_ws s = s.
Proof. destruct s as [|c t]; intros H; [reflexivity|]. cbn. rewrite (H c t eq_refl). reflexivity. Qed.

Lemma lstrip_ws_idem (s : pystr) : lstrip_ws (lstrip_ws s) = lstrip_ws s.
Proof. apply lstrip_ws_id. apply lstrip_ws_head. Qed.

Lemma strip_idem (s : pystr) : strip (strip s) = strip s.
Proof.
  unfold strip. set (u := lstrip_ws s).
  destruct (lstrip_ws_suffix (rev u)) as [p Hp].
  assert (Hu : u = rev (lstrip_ws (rev u)) ++ rev p).
  { rewrite <- rev_app_distr, <- Hp, rev_involutive. reflexivity. }
  rewrite (lstrip_ws_id (rev (lstrip_ws (rev u)))).
  - rewrite rev_involutive, lstrip_ws_idem. reflexivity.
  - intros c t E. apply (lstrip_ws_head s c (t ++ rev p)). fold u.
    rewrite Hu, E. reflexivity.
Qed.

Lemma strip_incl (s : pystr) (x : Z) : In x (strip s) -> In x s.
Proof.
  unfold strip. intros H. apply in_rev in H.
  destruct (lstrip_ws_suffix (rev (lstrip_ws s))) as [p Hp].
  destruct (lstrip_ws_suffix s) as [q Hq].
  assert (H2 : In x (rev (lstrip_ws s))) by (rewrite Hp; apply in_or_app; right; exact H).
  apply in_rev in H2. rewrite Hq. apply in_or_app. right. exact H2.
Qed.

End StripFacts.

(** ** Facts about the update date found by [remove_headers_and_footers] *)

Module UpdateDateFacts.
Import ExtractFacilities Shelters GenerateSite.

Lemma date_at_take (s : pystr) : date_at (take 9 s) = date_at s.
Proof. do 9 (destruct s as [|? s]; [reflexivity|]). reflexivity. Qed.

Lemma date_at_length (s : pystr) : date_at s = true -> (9 <= length s)%nat.
Proof.
  intros E. unfold date_at in E. cbv zeta in E. destruct (s !! 8%nat) eqn:E8.
  - apply lookup_lt_Some in E8. lia.
  - rewrite andb_false_r in E. discriminate.
Qed.

Lemma date_at_take_shape (s : pystr) :
  date_at s = true -> date_at (take 9 s) = true /\ length (take 9 s) = 9%nat.
Proof.
  intros E. rewrite date_at_take, length_take. split; [exact E|].
  apply date_at_length in E. lia.
Qed.

Lemma search_date_shape (s d : pystr) :
  search_date s = Some d -> date_at d = true /\ length d = 9%nat.
Proof.
  induction s as [|c s IH]; cbn [search_date].
  - destruct (date_at []) eqn:E; discriminate.
  - destruct (date_at (c :: s)) eqn:E; [|exact IH].
    intros [= <-]. exact (date_at_take_shape (c :: s) E).
Qed.

Definition dated_update (item d : pystr) : Prop :=
  existsb (fun key => contains item key) HEADER_KEYS = false /\
  contains item UPDATED = true /\ search_date item = Some d.

Lemma remove_aux_date (sections : list pystr) (ud : option pystr) (d : pystr) :
  snd (remove_headers_and_footers_aux sections ud) = Some d ->
  (exists before item after, sections = before ++ item :: after /\ dated_update item d /\
     Forall (fun it => existsb (fun key => contains it key) HEADER_KEYS = false ->
                       contains it UPDATED = true -> search_date it = None) after) \/
  (ud = Some d /\
   Forall (fun it => existsb (fun key => contains it key) HEADER_KEYS = false ->
                     contains it UPDATED = true -> search_date it = None) sections).
Proof.
  revert ud. induction sections as [|item rest IH]; intros ud H; cbn [remove_headers_and_footers_aux] in H.
  - right. split; [exact H|constructor].
  - destruct (existsb (fun key => contains item key) HEADER_KEYS) eqn:Eh.
    + destruct (IH ud H) as [(bf & it & af & E & D & F)|[U F]].
      * left. exists (item :: bf), it, af. rewrite E. auto.
      * right. split; [exact U|]. constructor; [congruence|exact F].
    + destruct (contains item UPDATED) eqn:Eu.
      * destruct (IH _ H) as [(bf & it & af & E & D & F)|[U F]].
        -- left. exists (item :: bf), it, af. rewrite E. auto.
        -- destruct (search_date item) as [dt|] eqn:Ed.
           ++ left. exists [], item, rest. injection U as ->.
              split; [reflexivity|]. split; [|exact F]. repeat split; assumption.
           ++ right. split; [exact U|]. constructor; [intros; exact Ed|exact F].
      * destruct (remove_headers_and_footers_aux rest ud) as [filtered ud2] eqn:Er.
        assert (H' : snd (remove_headers_and_footers_aux rest ud) = Some d)
          by (rewrite Er; exact H).
        destruct (IH ud H') as [(bf & it & af & E & D & F)|[U F]].
        -- left. exists (item :: bf), it, af. rewrite E. auto.
        -- right. split; [exact U|]. constructor; [congruence|exact F].
Qed.

End UpdateDateFacts.

(** ** Facts about the rows built by [assemble_rows] *)

Module RowFacts.
Import ExtractFacilities Shelters GenerateSite.

Definition opt_row_count (current : option Row) : nat :=
  match current with Some _ => 1 | None => 0 end.

Lemma assemble_rows_aux_spec (sections : list pystr) (rows : list Row) (current : option Row) :
  let P := fun r => exists item rest, name_parts r = item :: rest /\ startswith item XINSHI = true in
  Forall P rows -> (forall c, current = Some c -> P c) ->
  length (assemble_rows_aux sections rows current) =
    (length rows + opt_row_count current +
     length (filter (fun item => startswith item XINSHI = true) sections))%nat /\
  Forall P (assemble_rows_aux sections rows current).
Proof.
  intros P. revert rows current.
  induction sections as [|item rest IH]; intros rows current Hrows Hcur; cbn [assemble_rows_aux].
  - destruct current as [c|]; cbn.
    + rewrite length_app. split; [cbn; lia|]. apply Forall_app. split; [exact Hrows|].
      constructor; [apply Hcur; reflexivity|constructor].
    + split; [lia|exact Hrows].
  - destruct (startswith item XINSHI) eqn:Es.
    + rewrite filter_cons_True by exact Es.
      destruct (IH (match current with Some c => rows ++ [c] | None => rows end)
                   (Some (mkRow [item] [] None))) as [L F].
      * destruct current as [c|]; [|exact Hrows].
        apply Forall_app. split; [exact Hrows|constructor; [apply Hcur; reflexivity|constructor]].
      * intros c [= <-]. exists item, []. split; [reflexivity|exact Es].
      * split; [|exact F]. rewrite L. destruct current; cbn; rewrite ?length_app; cbn; lia.
    + rewrite filter_cons_False by (rewrite Es; discriminate).
      destruct current as [c|].
      * destruct (IH rows (Some (assemble_item c item)) Hrows) as [L F].
        { intros c' [= <-]. destruct (Hcur c eq_refl) as (it & r & E & S).
          unfold assemble_item.
          repeat match goal with |- context [if ?b then _ else _] => destruct b end;
            exists it; eexists; (split; [|exact S]); cbn; rewrite E; reflexivity. }
        split; [|exact F]. rewrite L. reflexivity.
      * destruct (IH rows None Hrows ltac:(discriminate)) as [L F]. split; [|exact F].
        rewrite L. reflexivity.
Qed.

End RowFacts.

(** ** Facts about the characters of [slugify] in extract_facilities.py *)

Module SlugCharFacts.
Import ExtractFacilities Shelters GenerateSite SlugFacts.

Definition slug_char (c : Z) : Prop := (97 <= c <= 122) \/ (48 <= c <= 57) \/ c = 45.

Lemma sub_nonalnum_chars (b : bool) (s : pystr) :
  Forall (fun c => is_ascii_alnum c = true \/ c = 45) (sub_nonalnum b s).
Proof.
  revert b. induction s as [|c s IH]; intros b; cbn; [constructor|].
  destruct (is_ascii_alnum c) eqn:E; [constructor; auto|].
  destruct b; [apply IH|constructor; auto].
Qed.

Lemma lstrip_chars_incl (cs s : pystr) (x : Z) : In x (lstrip_chars cs s) -> In x s.
Proof.
  induction s as [|c s IH]; cbn; [tauto|]. destruct (existsb _ cs); [intros H; right; auto|tauto].
Qed.

Lemma strip_chars_incl (cs s : pystr) (x : Z) : In x (strip_chars cs s) -> In x s.
Proof.
  unfold strip_chars. intros H. apply in_rev, lstrip_chars_incl, in_rev in H.
  eapply lstrip_chars_incl. exact H.
Qed.

End SlugCharFacts.

(** ** Facts about the slugs of build_site.py *)

Module SiteSlugFacts.
Import Shelters SlugFacts BuildSite.

Lemma lstrip_chars_app (cs u v : pystr) :
  lstrip_chars cs (u ++ v) =
  match lstrip_chars cs u with [] => lstrip_chars cs v | w => w ++ v end.
Proof.
  induction u as [|c u IH]; cbn; [reflexivity|].
  destruct (existsb (Z.eqb c) cs); [exact IH|reflexivity].
Qed.

Lemma lstrip_chars_all (cs u : pystr) :
  Forall (fun c => existsb (Z.eqb c) cs = false) (take 1 u) -> lstrip_chars cs u = u.
Proof. destruct u as [|c u]; cbn; [reflexivity|]. intros H. inversion H; subst. rewrite H2. reflexivity. Qed.

Lemma collapse_dashes_digits (b : bool) (d s : pystr) :
  Forall is_ascii_digit d -> d <> [] ->
  collapse_dashes b (d ++ s) = d ++ collapse_dashes false s.
Proof.
  intros Hd. revert b. induction Hd as [|c d Hc Hd IH]; intros b Hne; [congruence|].
  unfold is_ascii_digit in Hc. cbn. rewrite (proj2 (Z.eqb_neq c 45)) by lia. f_equal.
  destruct d as [|c' d]; [reflexivity|]. apply IH. discriminate.
Qed.

Section WithWord.

Variable is_word : Z -> bool.

Hypothesis is_word_digit : forall c, 48 <= c <= 57 -> is_word c = true.

Lemma py_str_nonempty (n : Z) : py_str n <> [].
Proof.
  unfold py_str. cbn [digits_rev]. destruct (n <? 10); cbn; [discriminate|].
  intros E. apply (f_equal (@length Z)) in E. rewrite length_app in E. cbn in E. lia.
Qed.

Lemma slugify_shape_site (text : pystr) (index : Z) :
  0 <= index ->
  exists t, slugify is_word text index = py_str (index + 1) ++ t /\
            (t = [] \/ exists r, t = 45 :: r).
Proof.
  intros Hi. destruct (py_str_spec (index + 1) ltac:(lia)) as [_ Hd].
  pose proof (py_str_nonempty (index + 1)) as Hne.
  set (d := py_str (index + 1)) in *.
  unfold slugify. fold d.
  rewrite map_app.
  assert (Hm : map (fun c => if safe_char is_word c then c else 45) d = d).
  { clear Hne. induction Hd as [|c d' Hc Hd' IH]; [reflexivity|]. cbn. rewrite IH.
    unfold safe_char. rewrite is_word_digit by (unfold is_ascii_digit in Hc; lia). reflexivity. }
  rewrite Hm. cbn [map app].
  set (rest := map _ text).
  assert (Hsafe : (if safe_char is_word 45 then 45 else 45) = 45) by (destruct (safe_char is_word 45); reflexivity).
  rewrite Hsafe. rewrite collapse_dashes_digits by assumption. cbn [collapse_dashes Z.eqb Pos.eqb].
  set (y := collapse_dashes true rest).
  unfold strip_chars.
  assert (Hl : lstrip_chars [45] (d ++ 45 :: y) = d ++ 45 :: y).
  { apply lstrip_chars_all. destruct d as [|c d']; [congruence|]. inversion Hd; subst.
    constructor; [|constructor]. cbn. unfold is_ascii_digit in *.
    rewrite (proj2 (Z.eqb_neq c 45)) by lia. reflexivity. }
  rewrite Hl. rewrite rev_app_distr. cbn [rev]. rewrite <- app_assoc. cbn [app].
  rewrite lstrip_chars_app.
  assert (Hrd : lstrip_chars [45] (rev d) = rev d).
  { apply lstrip_chars_all. destruct (rev d) as [|c d'] eqn:Er.
    - constructor.
    - constructor; [|constructor]. cbn.
      assert (Hc : In c d) by (apply in_rev; rewrite Er; left; reflexivity).
      rewrite Forall_forall in Hd. apply list_elem_of_In in Hc. specialize (Hd c Hc).
      unfold is_ascii_digit in Hd. rewrite (proj2 (Z.eqb_neq c 45)) by lia. reflexivity. }
  destruct (lstrip_chars [45] (rev y)) as [|w ws] eqn:Ey.
  - change (lstrip_chars [45] (45 :: rev d)) with (lstrip_chars [45] (rev d)).
    rewrite Hrd, rev_involutive.
    destruct d as [|c d']; [congruence|]. cbn [is_nil]. exists []. rewrite app_nil_r. auto.
  - rewrite rev_app_distr. cbn [rev app]. rewrite rev_involutive.
    destruct d as [|c d']; [congruence|]. cbn [is_nil app].
    eexists. split; [|right; eexists; reflexivity].
    rewrite <- app_assoc. reflexivity.
Qed.

End WithWord.

End SiteSlugFacts.

(** ** Facts about the formatting helpers of build_pages.py *)

Module PagesFacts.
Import ExtractFacilities SlugFacts BuildPages BuildSites DecodeFacts.

Lemma pad2_spec (n : Z) : 0 <= n -> py_int (pad2 n) = n.
Proof.
  intros Hn. unfold pad2. rewrite py_int_zeros. apply (py_str_spec n Hn).
Qed.

Lemma group_rev_no_comma (n : nat) (ds : pystr) :
  (length ds <= n)%nat ->
  filter (fun c => c <> 44) (group_rev ds) = filter (fun c => c <> 44) ds.
Proof.
  revert ds. induction n as [|n IH]; intros ds Hl.
  - destruct ds; [reflexivity|cbn in Hl; lia].
  - destruct ds as [|a [|b [|c [|e t]]]]; try reflexivity.
    change (group_rev (a :: b :: c :: e :: t)) with (a :: b :: c :: 44 :: group_rev (e :: t)).
    rewrite !(filter_cons (fun c => c <> 44) a), !(filter_cons (fun c => c <> 44) b),
      !(filter_cons (fun c => c <> 44) c).
    rewrite filter_cons_False by (intros H; apply H; reflexivity).
    rewrite IH by (cbn in *; lia). reflexivity.
Qed.

Lemma filter_rev_Z (P : Z -> Prop) `{!forall x, Decision (P x)} (l : pystr) :
  filter P (rev l) = rev (filter P l).
Proof.
  induction l as [|x l IH]; [reflexivity|].
  cbn [rev]. rewrite filter_app, IH, !filter_cons. case_decide; cbn; [reflexivity|].
  rewrite app_nil_r. reflexivity.
Qed.

Lemma py_str_no_comma (n : Z) : 0 <= n -> filter (fun c => c <> 44) (py_str n) = py_str n.
Proof.
  intros Hn. destruct (py_str_spec n Hn) as [_ Hd]. induction Hd as [|c l Hc Hl IH]; [reflexivity|].
  rewrite filter_cons_True by (unfold is_ascii_digit in Hc; lia). rewrite IH. reflexivity.
Qed.

End PagesFacts.

(** ** Facts about [_build_unicode_map] of build_sites.py *)

Module UnicodeMapFacts.
Import ExtractFacilities GenerateSite BuildSites DecodeFacts.

Lemma finditer_aux_sound {A} (m : pystr -> option (A * nat)) (fuel pos : nat) (s : pystr)
    (a : A) (i j : nat) :
  In (a, i, j) (finditer_aux m fuel pos s) -> exists t n, m t = Some (a, n).
Proof.
  revert pos s. induction fuel as [|fuel IH]; intros pos s H; cbn in H; [contradiction|].
  destruct s as [|c s']; [contradiction|].
  destruct (m (c :: s')) as [[b n]|] eqn:E.
  - destruct H as [H|H]; [injection H as -> _ _; eauto|eapply IH; exact H].
  - eapply IH. exact H.
Qed.

Lemma findall_sound {A} (m : pystr -> option (A * nat)) (s : pystr) (a : A) :
  In a (findall m s) -> exists t n, m t = Some (a, n).
Proof.
  unfold findall. intros H. apply in_map_iff in H as [[[b i] j] [<- H]].
  eapply finditer_aux_sound. exact H.
Qed.

Lemma m_pair_upper_nonneg (t : pystr) (p : Z * Z) (n : nat) :
  m_pair_upper t = Some (p, n) -> 0 <= snd p.
Proof.
  unfold m_pair_upper. intros H.
  destruct (lit _ t) as [r|]; cbn in H; [|discriminate].
  destruct (is_nil (take_hex r)); [discriminate|].
  destruct (lit _ (drop _ r)) as [r2|]; cbn in H; [|discriminate].
  destruct (lit _ (drop_while _ r2)) as [r3|]; cbn in H; [|discriminate].
  destruct (is_nil (take_hex r3)); [discriminate|].
  destruct (lit _ (drop _ r3)) as [r4|]; cbn in H; [|discriminate].
  injection H as <- _. apply hex_value_nonneg.
Qed.

Lemma fold_blocks_concat (f : option (gmap Z Z) -> Z * Z -> option (gmap Z Z))
    (g : pystr -> list (Z * Z)) (bs : list pystr) (a : option (gmap Z Z)) :
  fold_left (fun acc b => fold_left f (g b) acc) bs a = fold_left f (concat (map g bs)) a.
Proof.
  revert a. induction bs as [|b bs IH]; intros a; [reflexivity|].
  cbn. rewrite fold_left_app. apply IH.
Qed.

Lemma fold_add_glyph_none (l : list (Z * Z)) (acc : option (gmap Z Z)) :
  Forall (fun p => 0 <= snd p) l ->
  fold_left add_glyph l acc = None <-> acc = None \/ Exists (fun p => 0x110000 <= snd p) l.
Proof.
  revert acc. induction l as [|p l IH]; intros acc Hl; cbn [fold_left].
  - split; [auto|]. intros [H|H]; [exact H|inversion H].
  - inversion Hl as [|? ? Hp Hl']; subst. rewrite IH by exact Hl'.
    unfold add_glyph. destruct acc as [m|]; cbn.
    + unfold py_chr. destruct (Z.leb_spec 0 (snd p)) as [H0|H0]; [|lia].
      destruct (Z.ltb_spec (snd p) 0x110000) as [H1|H1]; cbn.
      * split.
        -- intros [H|H]; [discriminate|right; right; exact H].
        -- intros [H|H]; [discriminate|]. inversion H; subst; [lia|right; assumption].
      * split; [intros _; right; left; lia|auto].
    + split; [auto|intros _; left; reflexivity].
Qed.

End UnicodeMapFacts.

(** ** Facts about the entries parsed by [_parse_facilities] of build_sites.py *)

Module EntryFacts.
Import ExtractFacilities SheltersFacts SlugFacts GenerateSite BuildSites.

Lemma prefixb_app_l (p t u : pystr) : prefixb p t = true -> prefixb p (t ++ u) = true.
Proof.
  intros H. apply prefixb_spec in H as [w ->]. apply prefixb_spec. exists (w ++ u).
  rewrite app_assoc. reflexivity.
Qed.

Lemma find_idx_first (s p : pystr) (i : nat) :
  p <> [] -> find_idx s p = Some i -> contains (take i s) p = false.
Proof.
  intros Hp. revert i. induction s as [|c s IH]; intros i H; cbn [find_idx] in H.
  - destruct p; [congruence|discriminate].
  - destruct (prefixb p (c :: s)) eqn:Hc.
    + injection H as <-. cbn. destruct p; [congruence|reflexivity].
    + destruct (find_idx s p) as [k|] eqn:Hk; [|discriminate]. cbn in H. injection H as <-.
      cbn [take contains]. rewrite (IH k eq_refl), orb_false_r.
      destruct (prefixb p (c :: take k s)) eqn:E; [|reflexivity].
      pose proof (prefixb_app_l _ _ (drop k s) E) as E2. cbn [app] in E2.
      rewrite take_drop in E2. congruence.
Qed.

Lemma contains_single (t : pystr) (x : Z) : In x t -> contains t [x] = true.
Proof.
  induction t as [|c t IH]; [contradiction|]. intros [->|H]; cbn.
  - rewrite Z.eqb_refl. reflexivity.
  - rewrite IH by exact H. apply orb_true_r.
Qed.

Lemma find_idx_single (r : pystr) (x : Z) (i : nat) :
  find_idx r [x] = Some i ->
  take (S i) r = take i r ++ [x] /\ ~ In x (take i r) /\ (i < length r)%nat.
Proof.
  intros H. pose proof (find_idx_prefix _ _ _ H) as Hp.
  destruct (drop i r) as [|c t] eqn:Ed; [discriminate|].
  cbn in Hp. rewrite andb_true_r in Hp. apply Z.eqb_eq in Hp. subst c.
  assert (Hl : r !! i = Some x) by (rewrite <- (Nat.add_0_r i), <- lookup_drop, Ed; reflexivity).
  split; [apply take_S_r; exact Hl|]. split.
  - intros Hin. apply contains_single in Hin. rewrite (find_idx_first r [x] i ltac:(discriminate) H) in Hin.
    discriminate.
  - apply lookup_lt_Some in Hl. exact Hl.
Qed.

Lemma match_area_shape (k : nat) (s a v r : pystr) :
  match_area k s = Some (a, v, r) ->
  (exists a0, a = a0 ++ [QU] /\ length a0 = k) /\
  (exists v0, v = v0 ++ [LI] /\ v0 <> [] /\ ~ In LI v0).
Proof.
  unfold match_area.
  destruct (forallb _ (take k s) && bool_decide (length (take k s) = k)
            && bool_decide (s !! k = Some QU)) eqn:E; [|discriminate].
  apply andb_prop in E as [E E3]. apply andb_prop in E as [_ E2].
  apply bool_decide_eq_true in E2, E3.
  destruct (find_idx (drop (S k) s) [LI]) as [[|i]|] eqn:Ef; try discriminate.
  destruct (is_nil _); [discriminate|]. intros [= <- <- _]. split.
  - exists (take k s). split; [apply take_S_r; exact E3|exact E2].
  - destruct (find_idx_single _ _ _ Ef) as (Et & Hn & Hl).
    exists (take (S i) (drop (S k) s)). split; [exact Et|]. split; [|exact Hn].
    intros E0. apply (f_equal length) in E0. rewrite length_take in E0. cbn [length] in E0. lia.
Qed.

Lemma match_entry_shape (s a v r : pystr) :
  match_entry s = Some (a, v, r) ->
  (exists a0, a = a0 ++ [QU] /\ (length a0 = 2 \/ length a0 = 3)%nat) /\
  (exists v0, v = v0 ++ [LI] /\ v0 <> [] /\ ~ In LI v0).
Proof.
  unfold match_entry. destruct (match_area 3 s) as [m|] eqn:E3.
  - intros [= ->]. destruct (match_area_shape _ _ _ _ _ E3) as [[a0 [Ea La]] Hv].
    split; [exists a0; auto|exact Hv].
  - intros H. destruct (match_area_shape _ _ _ _ _ H) as [[a0 [Ea La]] Hv].
    split; [exists a0; auto|exact Hv].
Qed.

Lemma search_capacity_end_digit (pos : nat) (s : pystr) (start : nat) (ds : pystr) :
  search_capacity_end pos s = Some (start, ds) ->
  (pos <= start)%nat /\ exists c, s !! (start - pos)%nat = Some c /\ is_digit c = true.
Proof.
  revert pos. induction s as [|c s IH]; intros pos H; cbn [search_capacity_end] in H;
    [discriminate|].
  destruct (is_digit c && _) eqn:E.
  - injection H as <- _. apply andb_prop in E as [E _].
    split; [lia|]. exists c. rewrite Nat.sub_diag. auto.
  - destruct (IH (S pos) H) as [Hle [d [Hd Hdig]]]. split; [lia|].
    exists d. replace (start - pos)%nat with (S (start - S pos)) by lia. auto.
Qed.

Definition build_facility_shape (f : BuildFacility) : Prop :=
  (exists a0, bf_area f = a0 ++ [QU] /\ (length a0 = 2 \/ length a0 = 3)%nat) /\
  (exists v0, bf_village f = v0 ++ [LI] /\ v0 <> [] /\ ~ In LI v0) /\
  contains (bf_name f) TAINAN = false /\
  startswith (bf_address f) TAINAN = true /\
  bf_division f = SHANHUA.

Lemma parse_entry_build_shape (index : nat) (entry : pystr) (f : BuildFacility) :
  parse_entry index entry = Some f ->
  build_facility_shape f /\ bf_slug f = asc "facility-" ++ pad3 (Z.of_nat index + 1).
Proof.
  unfold parse_entry. destruct (is_nil (strip entry)); [discriminate|].
  destruct (match_entry (strip entry ++ SHANHUA)) as [[[area village] rest]|] eqn:Em;
    cbn; [|discriminate].
  destruct (find_idx rest TAINAN) as [as_|] eqn:Ea; cbn; [|discriminate].
  destruct (search_capacity_end 0 (drop as_ rest)) as [[start ds]|] eqn:Ec; cbn; [|discriminate].
  intros [= <-]. split; [|reflexivity].
  destruct (match_entry_shape _ _ _ _ Em) as [Ha Hv].
  split; [exact Ha|]. split; [exact Hv|]. cbn [bf_name bf_address bf_division].
  split; [apply (find_idx_first rest TAINAN as_ ltac:(discriminate) Ea)|]. split; [|reflexivity].
  pose proof (find_idx_prefix _ _ _ Ea) as Hp. apply prefixb_spec in Hp as [t Ht].
  destruct (search_capacity_end_digit _ _ _ _ Ec) as [_ [c [Hc Hd]]].
  rewrite Nat.sub_0_r, Ht in Hc. rewrite Ht.
  assert (H3 : (3 <= start)%nat).
  { destruct start as [|[|[|start]]]; [..|lia]; cbn in Hc; injection Hc as <-; discriminate. }
  unfold startswith. apply prefixb_spec. exists (take (start - 3) t).
  rewrite take_app_ge by (cbn; lia). reflexivity.
Qed.

Lemma parse_entries_spec (index : nat) (entries : list pystr) :
  Forall (fun f => build_facility_shape f /\
            exists k, (index <= k)%nat /\ bf_slug f = asc "facility-" ++ pad3 (Z.of_nat k + 1))
    (parse_entries index entries) /\
  NoDup (map bf_slug (parse_entries index entries)).
Proof.
  revert index. induction entries as [|e es IH]; intros index; cbn [parse_entries].
  - split; constructor.
  - destruct (IH (S index)) as [F N]. destruct (parse_entry index e) as [f|] eqn:E.
    + destruct (parse_entry_build_shape _ _ _ E) as [Sh Sl]. split.
      * constructor; [split; [exact Sh|exists index; split; [lia|exact Sl]]|].
        eapply Forall_impl; [exact F|]. intros g [Sg [k [Hk Hs]]]. split; [exact Sg|].
        exists k. split; [lia|exact Hs].
      * cbn [map]. constructor; [|exact N]. intros Hin.
        apply list_elem_of_In, in_map_iff in Hin as [g [Eg Hg]].
        rewrite Forall_forall in F. apply list_elem_of_In in Hg.
        destruct (F g Hg) as [_ [k [Hk Hs]]]. rewrite Sl, Hs in Eg.
        apply app_inv_head in Eg. apply (f_equal py_int) in Eg.
        rewrite (proj1 (pad3_spec (Z.of_nat index + 1) ltac:(lia))),
          (proj1 (pad3_spec (Z.of_nat k + 1) ltac:(lia))) in Eg. lia.
    + split; [|exact N]. eapply Forall_impl; [exact F|]. intros g [Sg [k [Hk Hs]]].
      split; [exact Sg|]. exists k. split; [lia|exact Hs].
Qed.

End EntryFacts.

(** ** Sample inputs for the further properties *)

Module ExtraSamples.
Import ExtractFacilities Shelters GenerateSite.

Definition sample_cmap_pdf : pystr :=
  asc "begincmap <0001> <0041> <0002> <0042> <0001> <0043> endcmap".

Definition sample_cmap_streams : list pystr :=
  [asc "BT (no map) ET"; asc "beginbfchar <01> <41> <02> <42> endbfchar"; asc "beginbfchar <01> <43> endbfchar"].

Definition ascii_word (c : Z) : bool := (48 <=? c) && (c <=? 57).

Definition sample_rows_sections : list pystr :=
  [asc "header"; XINSHI ++ [0x5927; LI; 0x4e2d]; asc "x"].

End ExtraSamples.

Module Claims.
Import ExtractFacilities ExtractFacilitiesFacts Shelters SheltersFacts Samples.
Import GenerateSite BuildSites GenerateSites.
Import DecodeFacts FilterFacts StreamFacts CMapFacts SlugFacts.

(** C1 (as amended): every record of [parse_facilities] and of
    [_parse_entry] has an address that is empty or starts with 臺南市; a
    terminal line closes a record even when no address line was
    collected, and that record keeps an empty address. *)
Theorem record_address_prefix_or_empty (lines : list pystr) (entry : pystr) :
  Forall (fun f => fac_address f = [] \/ startswith (fac_address f) TAINAN = true)
    (parse_facilities lines) /\
  (forall r, _parse_entry entry = Some r ->
             sh_address r = [] \/ startswith (sh_address r) TAINAN = true) /\
  (forall (facs : list Facility) (pending : list pystr) (line d b : pystr),
     cap_branch_match line = Some (d, b) ->
     Forall (fun e => startswith e TAINAN = false) pending ->
     pf_step (facs, pending) line = (facs ++ [close_record pending d b], []) /\
     fac_address (close_record pending d b) = []).
Proof.
  split; [|split].
  - apply parse_fold_addresses. constructor.
  - intros r Hr. apply (parse_entry_shape entry r Hr).
  - intros facs pending line d b Hm Hnone.
    split; [unfold pf_step; rewrite Hm; reflexivity|].
    pose proof (split_fold_none pending [] Hnone) as H0.
    unfold close_record, split_pending.
    destruct (fold_left split_step pending ([], [])) as [np ap].
    cbn [snd] in H0. subst ap. reflexivity.
Qed.

Lemma record_address_prefix_or_empty_witness :
  Forall (fun f => fac_address f = [] \/ startswith (fac_address f) TAINAN = true)
    (parse_facilities [name_line; terminal_line]) /\
  (forall r, _parse_entry (XINSHI ++ [0x4e2d; LI] ++ name_line ++ asc "1") = Some r ->
             sh_address r = [] \/ startswith (sh_address r) TAINAN = true) /\
  (forall (facs : list Facility) (pending : list pystr) (line d b : pystr),
     cap_branch_match line = Some (d, b) ->
     Forall (fun e => startswith e TAINAN = false) pending ->
     pf_step (facs, pending) line = (facs ++ [close_record pending d b], []) /\
     fac_address (close_record pending d b) = []).
Proof. apply record_address_prefix_or_empty. Defined.

(** C1 fails as stated: a name line followed directly by a terminal line
    yields a finalized record whose address is empty. *)
Lemma parse_facilities_keeps_addressless_record :
  parse_facilities [name_line; terminal_line] =
    [close_record [name_line] (asc "120") SHANHUA] /\
  fac_address (close_record [name_line] (asc "120") SHANHUA) = [].
Proof. split; vm_compute; reflexivity. Qed.

(** C7: when a line matches the terminal pattern [<digits><...分局>] and an
    address line has been collected, exactly one record is closed: its
    capacity is the parsed digits, its branch the trailing text, its name
    and address the stripped concatenations of the pending name and
    address parts; the pending lines are reset. *)
Theorem parse_facilities_terminal_closes_record
    (facs : list Facility) (pending : list pystr) (line d b : pystr) :
  cap_branch_match line = Some (d, b) ->
  Exists (fun e => startswith e TAINAN = true) pending ->
  let '(name_parts, address_parts) := split_pending pending in
  let f := close_record pending d b in
  pf_step (facs, pending) line = (facs ++ [f], []) /\
  (d <> [] /\ Forall (fun c => is_digit c = true) d /\
   (line = d ++ b \/ line = d ++ b ++ [NEWLINE]) /\
   exists x, x <> [] /\ b = x ++ FENJU) /\
  fac_capacity f = py_int d /\ fac_branch f = b /\
  fac_name f = strip (concat name_parts) /\
  fac_address f = strip (concat address_parts) /\
  startswith (fac_address f) TAINAN = true.
Proof.
  intros Hm Hex.
  pose proof (split_fold_found pending ([], []) Hex) as Hne.
  pose proof (split_fold_addr_ok pending ([], []) (or_introl eq_refl)) as Hok.
  pose proof (cap_branch_match_sound _ _ _ Hm) as Hs.
  unfold split_pending in *.
  destruct (fold_left split_step pending ([], [])) as [np ap] eqn:Hsp.
  cbn [snd] in Hne, Hok.
  assert (Hf : close_record pending d b =
    mkFacility (strip (concat np)) (strip (concat ap)) (py_int d) b
      (if contains (strip (concat np)) XINSHI || contains (strip (concat ap)) XINSHI
       then Some XINSHI else None)
      (extract_li (strip (concat np)) (strip (concat ap))) None).
  { unfold close_record, split_pending. rewrite Hsp. reflexivity. }
  rewrite Hf. cbn [fac_capacity fac_branch fac_name fac_address].
  split; [unfold pf_step; rewrite Hm, Hf; reflexivity|].
  split; [exact Hs|].
  do 4 (split; [reflexivity|]).
  destruct Hok as [->|[e [rest [-> He]]]]; [congruence|].
  apply prefixb_spec in He as [t ->]. cbn [concat].
  rewrite <- app_assoc. apply strip_keeps_prefix; [discriminate|apply TAINAN_nonspace].
Qed.

Lemma parse_facilities_terminal_closes_record_witness :
  cap_branch_match terminal_line = Some (asc "120", SHANHUA) /\
  Exists (fun e => startswith e TAINAN = true) [name_line; address_line] /\
  let '(name_parts, address_parts) := split_pending [name_line; address_line] in
  let f := close_record [name_line; address_line] (asc "120") SHANHUA in
  pf_step ([], [name_line; address_line]) terminal_line = ([] ++ [f], []) /\
  (asc "120" <> [] /\ Forall (fun c => is_digit c = true) (asc "120") /\
   (terminal_line = asc "120" ++ SHANHUA \/ terminal_line = asc "120" ++ SHANHUA ++ [NEWLINE]) /\
   exists x, x <> [] /\ SHANHUA = x ++ FENJU) /\
  fac_capacity f = py_int (asc "120") /\ fac_branch f = SHANHUA /\
  fac_name f = strip (concat name_parts) /\
  fac_address f = strip (concat address_parts) /\
  startswith (fac_address f) TAINAN = true.
Proof.
  split; [reflexivity|]. split; [constructor 2; constructor 1; reflexivity|].
  apply (parse_facilities_terminal_closes_record [] [name_line; address_line]
           terminal_line (asc "120") SHANHUA).
  - reflexivity.
  - constructor 2; constructor 1; reflexivity.
Defined.

(** C10: lines after the last terminal line never reach a record (the
    pending lines are not flushed at the end), and a sequence without any
    terminal line yields no record. *)
Theorem parse_facilities_drops_trailing (lines rest : list pystr) :
  Forall (fun l => cap_branch_match l = None) rest ->
  parse_facilities (lines ++ rest) = parse_facilities lines /\
  parse_facilities rest = [].
Proof.
  intros H. unfold parse_facilities. rewrite fold_left_app. split.
  - apply parse_fold_no_terminal, H.
  - rewrite parse_fold_no_terminal by exact H. reflexivity.
Qed.

Lemma parse_facilities_drops_trailing_witness :
  Forall (fun l => cap_branch_match l = None) [name_line; address_line] /\
  parse_facilities ([name_line; address_line; terminal_line] ++ [name_line; address_line])
    = parse_facilities [name_line; address_line; terminal_line] /\
  parse_facilities [name_line; address_line] = [].
Proof.
  split; [repeat constructor|].
  apply parse_facilities_drops_trailing. repeat constructor.
Defined.

(** C9: every record returned by [extract_shelters] has district 新市區
    and branch 善化分局, whatever text was decoded: both are literals of
    [_parse_entry]. *)
Theorem extract_shelters_constant_fields
    (zlib_decompress : pystr -> option pystr) (raw_pdf : pystr) (recs : list Shelter) :
  extract_shelters zlib_decompress raw_pdf = Some recs ->
  Forall (fun r => sh_district r = XINSHI /\ sh_branch r = SHANHUA) recs.
Proof.
  unfold extract_shelters. destruct (_load_cmap_mapping raw_pdf) as [cmap|]; [|discriminate].
  cbn. intros H. apply parse_all_shape in H.
  eapply Forall_impl; [exact H|]. intros r [Hd [Hb _]]. split; assumption.
Qed.

Lemma extract_shelters_constant_fields_witness :
  exists recs, extract_shelters zlib_stored row_pdf = Some recs /\ recs <> [] /\
  Forall (fun r => sh_district r = XINSHI /\ sh_branch r = SHANHUA) recs.
Proof.
  exists (default [] (extract_shelters zlib_stored row_pdf)).
  split; [vm_compute; reflexivity|]. split; [vm_compute; discriminate|].
  apply (extract_shelters_constant_fields zlib_stored row_pdf). vm_compute. reflexivity.
Defined.

(** C2 (as amended): [decode_hex_string] turns every 4-digit glyph code
    into its CMap value, or into U+FFFD when the code is absent, and does
    not raise when the CMap values are code points; [decode_sections]
    keeps the CMap value of a present code and drops an absent code (no
    placeholder); [decode_text_streams] turns an absent code into the
    character of the code itself, and raises when that code is not a
    code point ([>= 0x110000]). *)
Theorem glyph_decoders_fallbacks (cmap : gmap Z Z) (codes : list Z) :
  (forall k v, cmap !! k = Some v -> 0 <= v < 0x110000) ->
  Forall (fun c => 0 <= c < 65536) codes ->
  decode_hex_string (concat (map hex4_encode codes)) cmap =
    Some (map (fun c => default 0xFFFD (cmap !! c)) codes) /\
  decode_section_codes codes cmap =
    Some (map (fun c => default 0 (cmap !! c)) (filter (fun c => is_Some (cmap !! c)) codes)) /\
  (forall hex_codes : list pystr,
     Forall (fun code => hex_value code < 0x110000) hex_codes ->
     decode_codes hex_codes cmap =
       Some (map (fun code => default (hex_value code) (cmap !! hex_value code)) hex_codes)) /\
  (forall (hex_codes : list pystr) (code : pystr),
     In code hex_codes -> cmap !! hex_value code = None -> 0x110000 <= hex_value code ->
     decode_codes hex_codes cmap = None).
Proof.
  intros Hcmap Hcodes.
  assert (Hv : forall c, 0 <= c -> 0 <= default c (cmap !! c) < 0x110000 \/ c >= 0x110000).
  { intros c Hc. destruct (cmap !! c) as [v|] eqn:E; cbn [default]; unfold id;
      [left; exact (Hcmap c v E) | lia]. }
  split; [|split; [|split]].
  - unfold decode_hex_string. rewrite chunks4_hex4_encode, mapM_map.
    apply mapM_Some_map. intros c Hin.
    apply list_elem_of_In in Hin. rewrite Forall_forall in Hcodes.
    rewrite py_int16_hex4_encode by exact (Hcodes c Hin). cbn.
    apply py_chr_in_range.
    destruct (cmap !! c) as [v|] eqn:E; cbn [default]; unfold id; [exact (Hcmap c v E) | lia].
  - unfold decode_section_codes. apply mapM_Some_map. intros c Hin.
    apply list_elem_of_In, list_elem_of_filter in Hin. destruct Hin as [[v Hc] _].
    rewrite Hc. cbn. apply py_chr_in_range. exact (Hcmap c v Hc).
  - intros hex_codes Hh. unfold decode_codes. apply mapM_Some_map. intros code Hin.
    apply list_elem_of_In in Hin. rewrite Forall_forall in Hh.
    apply py_chr_in_range.
    destruct (cmap !! hex_value code) as [v|] eqn:E; cbn [default]; unfold id;
      [exact (Hcmap _ v E) | pose proof (hex_value_nonneg code); pose proof (Hh code Hin); lia].
  - intros hex_codes code Hin Hnone Hbig. unfold decode_codes.
    apply (mapM_None_In _ _ code Hin). rewrite Hnone. cbn [default].
    apply py_chr_out_of_range. exact Hbig.
Qed.

Lemma glyph_decoders_fallbacks_witness :
  (forall k v, one_glyph_cmap !! k = Some v -> 0 <= v < 0x110000) /\
  Forall (fun c => 0 <= c < 65536) [1; 2] /\
  decode_hex_string (concat (map hex4_encode [1; 2])) one_glyph_cmap =
    Some (map (fun c => default 0xFFFD (one_glyph_cmap !! c)) [1; 2]) /\
  decode_section_codes [1; 2] one_glyph_cmap =
    Some (map (fun c => default 0 (one_glyph_cmap !! c))
            (filter (fun c => is_Some (one_glyph_cmap !! c)) [1; 2])) /\
  (forall hex_codes : list pystr,
     Forall (fun code => hex_value code < 0x110000) hex_codes ->
     decode_codes hex_codes one_glyph_cmap =
       Some (map (fun code => default (hex_value code) (one_glyph_cmap !! hex_value code))
               hex_codes)) /\
  (forall (hex_codes : list pystr) (code : pystr),
     In code hex_codes -> one_glyph_cmap !! hex_value code = None ->
     0x110000 <= hex_value code -> decode_codes hex_codes one_glyph_cmap = None).
Proof.
  assert (H1 : forall k v, one_glyph_cmap !! k = Some v -> 0 <= v < 0x110000).
  { intros k v H. unfold one_glyph_cmap in H; apply lookup_singleton_Some in H as [_ <-]. lia. }
  assert (H2 : Forall (fun c => 0 <= c < 65536) [1; 2]) by (repeat constructor; lia).
  split; [exact H1|]. split; [exact H2|].
  exact (glyph_decoders_fallbacks one_glyph_cmap [1; 2] H1 H2).
Defined.

(** C2 fails as stated: [decode_sections] emits nothing for a code absent
    from the CMap, and [decode_text_streams] raises on the absent code
    [<110000>]. *)
Lemma glyph_decoders_without_placeholder :
  decode_sections (asc "[<0041>]") {[0x42 := 0x58]} = Some [] /\
  decode_text_streams zlib_stored big_code_pdf ∅ = None.
Proof. split; vm_compute; reflexivity. Qed.

(** C3 (as amended): [should_skip] drops a line when it contains one of
    the seven strings as a substring (not only when it equals one), so
    every line [extract_lines] keeps contains none of them; likewise
    [remove_headers_and_footers] keeps exactly the items that contain no
    header key and no 更新. *)
Theorem skip_filters_substring (line : pystr) (zlib_decompress : pystr -> option pystr)
    (raw_pdf : pystr) (cmap : gmap Z Z) (sections : list pystr) (item : pystr) :
  (should_skip line = true <->
     exists pattern, In pattern SKIP_PATTERNS /\ contains line pattern = true) /\
  (forall lines, extract_lines zlib_decompress raw_pdf cmap = Some lines ->
     forall l pattern, In l lines -> In pattern SKIP_PATTERNS -> contains l pattern = false) /\
  (In item (fst (remove_headers_and_footers sections)) <->
     In item sections /\ existsb (fun key => contains item key) HEADER_KEYS = false /\
     contains item UPDATED = false).
Proof.
  split; [apply should_skip_iff|]. split.
  - intros lines H l pattern Hl Hp.
    pose proof (extract_lines_kept _ _ _ _ H l Hl) as Hs.
    destruct (contains l pattern) eqn:Hc; [|reflexivity].
    assert (should_skip l = true) by (apply should_skip_iff; exists pattern; split; assumption).
    congruence.
  - apply remove_headers_and_footers_aux_kept.
Qed.

Lemma skip_filters_substring_witness :
  (should_skip update_road_run = true <->
     exists pattern, In pattern SKIP_PATTERNS /\ contains update_road_run pattern = true) /\
  (forall lines, extract_lines zlib_stored update_road_pdf update_road_cmap = Some lines ->
     forall l pattern, In l lines -> In pattern SKIP_PATTERNS -> contains l pattern = false) /\
  (In update_road_run (fst (remove_headers_and_footers [update_road_run])) <->
     In update_road_run [update_road_run] /\
     existsb (fun key => contains update_road_run key) HEADER_KEYS = false /\
     contains update_road_run UPDATED = false).
Proof. apply skip_filters_substring. Defined.

(** C3 fails as stated: the address run 臺南市新市區更新路1號, which is
    none of the boilerplate strings, is dropped by [extract_lines] and by
    [remove_headers_and_footers] because it contains 更新. *)
Lemma update_road_run_dropped :
  extract_lines zlib_stored update_road_pdf update_road_cmap = Some [] /\
  ~ In update_road_run SKIP_PATTERNS /\
  fst (remove_headers_and_footers [update_road_run]) = [].
Proof.
  split; [vm_compute; reflexivity|]. split; [|vm_compute; reflexivity].
  vm_compute. intuition discriminate.
Qed.

(** C4 (as amended): a located segment whose bytes, stripped of CR/LF,
    do not decompress adds nothing to the output of [_decompress_streams]
    (extract_shelters.py) or [_extract_text_runs] (build_sites.py), and
    the loops go on with the next segments; [extract_streams]
    (generate_site.py) does not skip it but keeps the stripped raw bytes
    as a stream in its place. [decode_text_streams] (generate_sites.py)
    decompresses the unstripped bytes: it skips a segment when those
    fail, and on [newline_adler_pdf], whose stripped segment fails while
    the unstripped one decompresses, it decodes the segment that the
    other two skip. *)
Theorem failing_segment_handling (zlib_decompress : pystr -> option pystr)
    (pre post : list (option pystr)) (seg : pystr) (mapping : gmap Z Z) :
  (zlib_decompress (strip_chars CRLF seg) = None ->
   decompress_segments zlib_decompress (pre ++ Some seg :: post) =
     decompress_segments zlib_decompress (pre ++ post) /\
   text_runs_of_segments zlib_decompress (pre ++ Some seg :: post) mapping =
     text_runs_of_segments zlib_decompress (pre ++ post) mapping /\
   streams_of_segments zlib_decompress (pre ++ Some seg :: post) =
     streams_of_segments zlib_decompress pre ++ strip_chars CRLF seg
       :: streams_of_segments zlib_decompress post) /\
  (zlib_decompress seg = None ->
   decode_segments zlib_decompress (pre ++ Some seg :: post) mapping =
     decode_segments zlib_decompress (pre ++ post) mapping) /\
  (_decompress_streams zlib_stored newline_adler_pdf = [] /\
   _extract_text_runs zlib_stored newline_adler_pdf ∅ = [] /\
   decode_text_streams zlib_stored newline_adler_pdf ∅ =
     Some [1; 2; 3; 4; 5; 6; 7; 8; 2; 9; 10; 11; 12; 13]).
Proof.
  split; [|split].
  - intros Hz. split; [apply decompress_segments_skip, Hz|].
    split; [apply text_runs_of_segments_skip, Hz|].
    apply streams_of_segments_keep, Hz.
  - intros Hz. apply decode_segments_skip, Hz.
  - vm_compute. repeat split.
Qed.

Lemma failing_segment_handling_witness :
  zlib_stored (strip_chars CRLF (asc "abc")) = None /\ zlib_stored (asc "abc") = None /\
  decompress_segments zlib_stored ([] ++ Some (asc "abc") :: [Some (mk_stored row_content)]) =
    decompress_segments zlib_stored ([] ++ [Some (mk_stored row_content)]) /\
  decode_segments zlib_stored ([] ++ Some (asc "abc") :: [Some (mk_stored row_content)]) ∅ =
    decode_segments zlib_stored ([] ++ [Some (mk_stored row_content)]) ∅.
Proof.
  assert (H1 : zlib_stored (strip_chars CRLF (asc "abc")) = None) by (vm_compute; reflexivity).
  assert (H2 : zlib_stored (asc "abc") = None) by (vm_compute; reflexivity).
  destruct (failing_segment_handling zlib_stored [] [Some (mk_stored row_content)] (asc "abc") ∅)
    as [A [B _]].
  split; [exact H1|]. split; [exact H2|]. split; [exact (proj1 (A H1))|exact (B H2)].
Defined.

(** C4 fails as stated: [extract_streams] returns the bytes [abc] of a
    segment that is not a zlib stream, where [_decompress_streams] returns
    nothing. *)
Lemma extract_streams_keeps_raw_segment :
  extract_streams zlib_stored plain_stream_pdf = [asc "abc"] /\
  _decompress_streams zlib_stored plain_stream_pdf = [].
Proof. split; vm_compute; reflexivity. Qed.

(** C5 (as amended): [_load_cmap_mapping] raises exactly when no
    [begincmap ... endcmap] block is found or when the block holds no
    [<XXXX> <XXXX>] pair, and [extract_shelters] then raises;
    [extract_facilities] (generate_site.py) raises when [build_cmap]
    finds no mapping; [load_cmap] (extract_facilities.py) raises neither
    error: on a PDF whose only stream holds no CMap it returns an empty
    mapping. *)
Theorem cmap_errors (zlib_decompress : pystr -> option pystr) (raw_pdf : pystr) :
  (_load_cmap_mapping raw_pdf = None <->
     search_cmap_block raw_pdf = None \/
     exists block, search_cmap_block raw_pdf = Some block /\ findall m_pair_sp block = []) /\
  (_load_cmap_mapping raw_pdf = None -> Shelters.extract_shelters zlib_decompress raw_pdf = None) /\
  (build_cmap (extract_streams zlib_decompress raw_pdf) = ∅ ->
     extract_facilities_rows zlib_decompress raw_pdf = None) /\
  load_cmap plain_stream_pdf = Some ∅.
Proof.
  split; [apply load_cmap_mapping_none|].
  split; [apply extract_shelters_cmap_none|].
  split; [apply extract_facilities_rows_empty|].
  vm_compute. reflexivity.
Qed.

Lemma cmap_errors_witness :
  (_load_cmap_mapping plain_stream_pdf = None <->
     search_cmap_block plain_stream_pdf = None \/
     exists block, search_cmap_block plain_stream_pdf = Some block /\
                   findall m_pair_sp block = []) /\
  (_load_cmap_mapping plain_stream_pdf = None ->
     Shelters.extract_shelters zlib_stored plain_stream_pdf = None) /\
  (build_cmap (extract_streams zlib_stored plain_stream_pdf) = ∅ ->
     extract_facilities_rows zlib_stored plain_stream_pdf = None) /\
  load_cmap plain_stream_pdf = Some ∅.
Proof. apply cmap_errors. Defined.

(** C5 fails as stated: [load_cmap] returns an empty mapping, with no
    error, for a PDF that has no character map. *)
Lemma load_cmap_no_error_without_cmap :
  load_cmap plain_stream_pdf = Some ∅ /\ search_cmap_block plain_stream_pdf = None.
Proof. split; vm_compute; reflexivity. Qed.

(** C6 (as amended): in [parse_facilities] (generate_sites.py) the slugs
    are pairwise distinct; the record at position [i] whose base slug is
    [b] is the [k]-th record so far with base [b], [k >= 1], and gets [b]
    when [k = 1] and [b-k] otherwise, so of two records with the same
    base the later one has the higher count. [main] of
    extract_facilities.py gives the record at position [i] the slug
    [slugify(i + 1, name)]; these slugs are pairwise distinct, and the
    slugs of two records with the same name are
    [facility-<3-digit i + 1>] and [facility-<3-digit j + 1>] followed by
    the same suffix. *)
Theorem slugs_unique_and_ordered (isalnum : Z -> bool) (names : list pystr)
    (facilities : list Facility) :
  isalnum 45 = false ->
  NoDup (assign_slugs isalnum names ∅) /\
  (forall (i : nat) (ni : pystr), names !! i = Some ni ->
     let b := base_slug isalnum ni in
     let k := Z.of_nat (slug_count isalnum b (take (S i) names)) in
     1 <= k /\
     assign_slugs isalnum names ∅ !! i = Some (if k =? 1 then b else b ++ [45] ++ py_str k)) /\
  (forall (i j : nat) (ni nj : pystr), (i < j)%nat -> names !! i = Some ni ->
     names !! j = Some nj -> base_slug isalnum ni = base_slug isalnum nj ->
     (slug_count isalnum (base_slug isalnum ni) (take (S i) names) <
      slug_count isalnum (base_slug isalnum nj) (take (S j) names))%nat) /\
  NoDup (main_slugs facilities) /\
  (forall (i : nat) (f : Facility), facilities !! i = Some f ->
     main_slugs facilities !! i = Some (slugify (Z.of_nat i + 1) (fac_name f))) /\
  (forall (i j : nat) (fi fj : Facility), facilities !! i = Some fi ->
     facilities !! j = Some fj -> fac_name fi = fac_name fj ->
     exists suffix,
       main_slugs facilities !! i = Some (asc "facility-" ++ pad3 (Z.of_nat i + 1) ++ suffix) /\
       main_slugs facilities !! j = Some (asc "facility-" ++ pad3 (Z.of_nat j + 1) ++ suffix)).
Proof.
  intros Hdash. split; [|split; [|split; [|split; [|split]]]].
  - apply NoDup_alt. intros i j x Hi Hj.
    destruct (Nat.lt_total i j) as [Hlt | [Heq | Hgt]]; [| exact Heq |].
    + exfalso. exact (assign_slugs_distinct_lt isalnum Hdash names i j x Hlt Hi Hj).
    + exfalso. exact (assign_slugs_distinct_lt isalnum Hdash names j i x Hgt Hj Hi).
  - intros i ni Hni b k. split.
    + assert (Hs : (0 < slug_count isalnum b (take (S i) names))%nat).
      { unfold slug_count. rewrite (take_S_r names i ni Hni), filter_app, length_app.
        unfold b. rewrite filter_cons_True by reflexivity. cbn [length]. lia. }
      unfold k. lia.
    + rewrite (assign_slugs_lookup isalnum names ∅ i ni Hni).
      cbn zeta. rewrite lookup_empty. cbn [default]. reflexivity.
  - intros i j ni nj Hij Hni Hnj Hb.
    pose proof (slug_count_lt isalnum names i j ni nj Hij Hni Hnj Hb) as [_ Hlt].
    rewrite <- Hb. exact Hlt.
  - apply main_slugs_NoDup.
  - intros i f Hf. unfold main_slugs. rewrite list_lookup_imap, Hf. reflexivity.
  - intros i j fi fj Hi Hj Hn. unfold main_slugs. rewrite !list_lookup_imap, Hi, Hj.
    cbn [fmap option_fmap option_map]. unfold slugify. rewrite Hn.
    destruct (is_nil (strip_chars [45] (sub_nonalnum false (fac_name fj)))).
    + exists []. rewrite !app_nil_r. split; reflexivity.
    + eexists. cbv zeta. rewrite <- !app_assoc. split; reflexivity.
Qed.

Lemma slugs_unique_and_ordered_witness :
  is_ascii_alnum 45 = false /\
  (NoDup (assign_slugs is_ascii_alnum [asc "ab"; asc "a b"] ∅) /\
  (forall (i : nat) (ni : pystr), [asc "ab"; asc "a b"] !! i = Some ni ->
     let b := base_slug is_ascii_alnum ni in
     let k := Z.of_nat (slug_count is_ascii_alnum b (take (S i) [asc "ab"; asc "a b"])) in
     1 <= k /\
     assign_slugs is_ascii_alnum [asc "ab"; asc "a b"] ∅ !! i =
       Some (if k =? 1 then b else b ++ [45] ++ py_str k)) /\
  (forall (i j : nat) (ni nj : pystr), (i < j)%nat -> [asc "ab"; asc "a b"] !! i = Some ni ->
     [asc "ab"; asc "a b"] !! j = Some nj ->
     base_slug is_ascii_alnum ni = base_slug is_ascii_alnum nj ->
     (slug_count is_ascii_alnum (base_slug is_ascii_alnum ni) (take (S i) [asc "ab"; asc "a b"]) <
      slug_count is_ascii_alnum (base_slug is_ascii_alnum nj) (take (S j) [asc "ab"; asc "a b"]))%nat) /\
  NoDup (main_slugs [facility_a; facility_a]) /\
  (forall (i : nat) (f : Facility), [facility_a; facility_a] !! i = Some f ->
     main_slugs [facility_a; facility_a] !! i = Some (slugify (Z.of_nat i + 1) (fac_name f))) /\
  (forall (i j : nat) (fi fj : Facility), [facility_a; facility_a] !! i = Some fi ->
     [facility_a; facility_a] !! j = Some fj -> fac_name fi = fac_name fj ->
     exists suffix,
       main_slugs [facility_a; facility_a] !! i =
         Some (asc "facility-" ++ pad3 (Z.of_nat i + 1) ++ suffix) /\
       main_slugs [facility_a; facility_a] !! j =
         Some (asc "facility-" ++ pad3 (Z.of_nat j + 1) ++ suffix))).
Proof.
  split; [reflexivity|].
  apply (slugs_unique_and_ordered is_ascii_alnum [asc "ab"; asc "a b"] [facility_a; facility_a]).
  reflexivity.
Defined.

(** C6 fails as stated for extract_facilities.py: two records named [A]
    get [facility-001-a] and [facility-002-a]; the collision is not
    resolved by a [-2] suffix, and the later slug ends in no number. *)
Lemma main_slugs_no_collision_suffix :
  main_slugs [facility_a; facility_a] = [asc "facility-001-a"; asc "facility-002-a"].
Proof. vm_compute. reflexivity. Qed.

(** C8 (a divergence of the code): on the CMap
    [<0041> <0041> <0061>] (a triple) and [<0010> <0012> [<0041> <0042> <0043>]]
    (an array range), [load_cmap] maps 0x10..0x12 to the array entries
    but maps 0x41 to 0x43 instead of 0x61, and 0x42, declared nowhere, to
    0x44: the triple pattern also matches the three codes inside the
    array, which it reads as a range 0x41..0x42 with base 0x43. *)
Theorem load_cmap_triple_matches_array_entries :
  (load_cmap range_pdf ≫= lookup 0x10) = Some 0x41 /\
  (load_cmap range_pdf ≫= lookup 0x11) = Some 0x42 /\
  (load_cmap range_pdf ≫= lookup 0x12) = Some 0x43 /\
  (load_cmap range_pdf ≫= lookup 0x41) = Some 0x43 /\
  (load_cmap range_pdf ≫= lookup 0x42) = Some 0x44.
Proof. vm_compute. repeat split. Qed.

End Claims.


(** * Further properties of the scripts *)

Module Extras.
Import ExtractFacilities ExtractFacilitiesFacts Shelters SheltersFacts.
Import GenerateSite BuildSites BuildPages DecodeFacts SlugFacts.
Import ParseFacts MappingFacts StripFacts UpdateDateFacts RowFacts SlugCharFacts.
Import SiteSlugFacts PagesFacts UnicodeMapFacts EntryFacts ExtraSamples.

(** X1: [parse_facilities] produces exactly one record per line that matches the capacity-and-branch pattern, whatever the other lines are. *)
Theorem parse_facilities_count (lines : list pystr) :
  length (parse_facilities lines) =
  length (filter (fun l => is_Some (cap_branch_match l)) lines).
Proof. unfold parse_facilities. rewrite pf_fold_length. reflexivity. Qed.

(** X2: after the range loop of [load_cmap] ([bfrange] with a scalar target), a code inside [start..end_] maps to [base + (code - start)] and every other code keeps its previous value. *)
Theorem set_range_lookup (mapping : gmap Z Z) (start end_ base code : Z) :
  set_range mapping start end_ base !! code =
  if bool_decide (start <= code <= end_) then Some (base + (code - start))
  else mapping !! code.
Proof.
  unfold set_range, range_offsets. rewrite set_range_fold.
  case_bool_decide; case_bool_decide; try reflexivity; lia.
Qed.

(** X3: after the array loop of [load_cmap] ([bfrange] with an array target), a code inside [start..end_] whose offset indexes the array maps to that array entry; codes past the array or outside the range keep their previous value. *)
Theorem set_array_lookup (mapping : gmap Z Z) (start end_ code : Z) (entries : list Z) :
  set_array mapping start end_ entries !! code =
  if bool_decide (start <= code <= end_)
  then match entries !! Z.to_nat (code - start) with
       | Some v => Some v
       | None => mapping !! code
       end
  else mapping !! code.
Proof.
  unfold set_array, range_offsets. rewrite set_array_fold.
  case_bool_decide; case_bool_decide; try reflexivity; lia.
Qed.

(** X4: when [decode_hex_string] succeeds, it yields one character per 4-digit chunk of the hex string, the last chunk possibly shorter. *)
Theorem decode_hex_string_length (hex_string : pystr) (cmap : gmap Z Z) (text : pystr) :
  decode_hex_string hex_string cmap = Some text ->
  length text = ((length hex_string + 3) / 4)%nat.
Proof.
  unfold decode_hex_string. intros H. apply mapM_length_Some in H. rewrite H.
  unfold chunks4. apply chunks4_fuel_length. lia.
Qed.

(** X5: the mapping returned by [_load_cmap_mapping] maps a code to a value exactly when the pair (code, value) occurs among the pairs of the CMap block and no later pair of the block has the same code (the last pair wins). *)
Theorem load_cmap_mapping_lookup (raw_pdf cmap_text : pystr) (mapping : gmap Z Z)
    (code value : Z) :
  search_cmap_block raw_pdf = Some cmap_text ->
  _load_cmap_mapping raw_pdf = Some mapping ->
  (mapping !! code = Some value <->
   exists pre post, findall m_pair_sp cmap_text = pre ++ (code, value) :: post /\
                    Forall (fun p => fst p <> code) post).
Proof.
  intros Hb Hm. unfold _load_cmap_mapping in Hm. rewrite Hb in Hm. cbn in Hm.
  case_bool_decide as Hne; [discriminate|]. injection Hm as <-.
  rewrite fold_insert_lookup, lookup_empty. split.
  - intros [H|[H _]]; [exact H|discriminate].
  - intros H. left. exact H.
Qed.

(** X6: every entry of the map returned by [build_cmap] comes from the pairs of one stream that contains beginbfchar, is the last pair with its code in that stream, and no earlier stream contributed any pair. *)
Theorem build_cmap_lookup (streams : list pystr) (code value : Z) :
  build_cmap streams !! code = Some value ->
  exists before stream after pre post,
    streams = before ++ stream :: after /\
    Forall (fun s => contains s (asc "beginbfchar") = false \/ findall m_pair_any s = []) before /\
    contains stream (asc "beginbfchar") = true /\
    findall m_pair_any stream = pre ++ (code, value) :: post /\
    Forall (fun p => fst p <> code) post.
Proof.
  induction streams as [|s streams IH]; cbn [build_cmap]; intros H.
  - rewrite lookup_empty in H. discriminate.
  - destruct (contains s (asc "beginbfchar")) eqn:Ec; cbn [negb] in H.
    + destruct (findall m_pair_any s) as [|p ps] eqn:Ep; cbn [is_nil] in H.
      * destruct (IH H) as (bf & st & af & pre & post & E & F & R).
        exists (s :: bf), st, af, pre, post. split; [rewrite E; reflexivity|].
        split; [constructor; [right; exact Ep|exact F]|exact R].
      * apply fold_insert_lookup in H as [[pre [post [E F]]]|[H _]];
          [|rewrite lookup_empty in H; discriminate].
        exists [], s, streams, pre, post. rewrite Ep. repeat split; auto.
    + destruct (IH H) as (bf & st & af & pre & post & E & F & R).
      exists (s :: bf), st, af, pre, post. split; [rewrite E; reflexivity|].
      split; [constructor; [left; exact Ec|exact F]|exact R].
Qed.

(** X7: every entry returned by [_split_entries] starts with 新市區, and every entry but the last ends with 善化分局. *)
Theorem split_entries_shape (clean_text : pystr) :
  Forall (fun e => exists r, e = XINSHI ++ r) (_split_entries clean_text) /\
  (forall i e, _split_entries clean_text !! i = Some e ->
               (S i < length (_split_entries clean_text))%nat ->
               exists r, e = r ++ SHANHUA).
Proof.
  unfold _split_entries. generalize (py_split clean_text (SHANHUA ++ XINSHI)). intros chunks.
  cbv zeta. set (n := length chunks).
  match goal with |- context [?g 0%nat chunks] => set (go := g) end.
  assert (Hnil : forall idx, go idx [] = []) by reflexivity.
  assert (Hcons : forall idx c cs, go idx (c :: cs) =
    if is_nil (strip c) then go (S idx) cs
    else (if startswith (if Nat.ltb idx (n - 1) then strip c ++ SHANHUA else strip c) XINSHI
          then (if Nat.ltb idx (n - 1) then strip c ++ SHANHUA else strip c)
          else XINSHI ++ (if Nat.ltb idx (n - 1) then strip c ++ SHANHUA else strip c))
         :: go (S idx) cs) by reflexivity.
  assert (Gen : forall cs idx, (idx + length cs = n)%nat ->
    Forall (fun e => exists r, e = XINSHI ++ r) (go idx cs) /\
    (forall i e, go idx cs !! i = Some e -> (S i < length (go idx cs))%nat ->
                 exists r, e = r ++ SHANHUA)).
  { induction cs as [|c cs IH]; intros idx Hidx.
    - rewrite Hnil. split; [constructor|]. intros i e H. discriminate.
    - rewrite Hcons. destruct (IH (S idx) ltac:(cbn in Hidx; lia)) as [IH1 IH2].
      destruct (is_nil (strip c)); [split; assumption|].
      set (ch := if Nat.ltb idx (n - 1) then strip c ++ SHANHUA else strip c).
      split.
      + constructor; [|exact IH1].
        destruct (startswith ch XINSHI) eqn:Es.
        * apply prefixb_spec in Es. exact Es.
        * eexists. reflexivity.
      + intros [|i] e H Hlt; cbn in H, Hlt.
        * injection H as <-.
          assert (Hc : cs <> []) by (intros ->; rewrite Hnil in Hlt; cbn in Hlt; lia).
          assert (Hl : Nat.ltb idx (n - 1) = true).
          { apply Nat.ltb_lt. destruct cs; [congruence|cbn in Hidx; lia]. }
          unfold ch. rewrite Hl.
          destruct (startswith (strip c ++ SHANHUA) XINSHI).
          -- eexists. reflexivity.
          -- exists (XINSHI ++ strip c). rewrite <- app_assoc. reflexivity.
        * apply (IH2 i e H). lia. }
  apply Gen. reflexivity.
Qed.

(** X8: [clean_sections] returns only non-empty strings with no U+FFFF character and no leading or trailing whitespace. *)
Theorem clean_sections_shape (sections : list pystr) :
  Forall (fun c => c <> [] /\ ~ In 0xffff c /\ strip c = c) (clean_sections sections).
Proof.
  unfold clean_sections. apply Forall_forall. intros c Hc.
  apply list_elem_of_filter in Hc as [Hne Hc]. apply list_elem_of_In, in_map_iff in Hc as [item [<- _]].
  split; [|split].
  - intros E. rewrite E in Hne. exact Hne.
  - intros Hin. apply strip_incl, list_elem_of_In, list_elem_of_filter in Hin as [H _].
    rewrite Z.eqb_refl in H. exact H.
  - apply strip_idem.
Qed.

(** X9: when [remove_headers_and_footers] returns an update date, it is the 9-character date found in the last non-header item containing 更新 whose date search succeeds. *)
Theorem remove_headers_update_date (sections : list pystr) (d : pystr) :
  snd (remove_headers_and_footers sections) = Some d ->
  exists before item after,
    sections = before ++ item :: after /\
    existsb (fun key => contains item key) HEADER_KEYS = false /\
    contains item UPDATED = true /\ search_date item = Some d /\
    Forall (fun it => existsb (fun key => contains it key) HEADER_KEYS = false ->
                      contains it UPDATED = true -> search_date it = None) after /\
    date_at d = true /\ length d = 9%nat.
Proof.
  unfold remove_headers_and_footers. intros H.
  destruct (remove_aux_date sections None d H) as [(bf & it & af & E & (D1 & D2 & D3) & F)|[U _]];
    [|discriminate].
  exists bf, it, af. repeat split; try assumption; apply (search_date_shape it d D3).
Qed.

(** X10: [assemble_rows] returns one row per item starting with 新市區, and the name parts of every row begin with such an item. *)
Theorem assemble_rows_shape (sections : list pystr) :
  length (assemble_rows sections) =
    length (filter (fun item => startswith item XINSHI = true) sections) /\
  Forall (fun r => exists item rest, name_parts r = item :: rest /\ startswith item XINSHI = true)
    (assemble_rows sections).
Proof.
  unfold assemble_rows.
  destruct (assemble_rows_aux_spec sections [] None ltac:(constructor) ltac:(discriminate))
    as [L F].
  split; [rewrite L; reflexivity|exact F].
Qed.

(** X11: for a non-negative sequence number, the slug built by [slugify] of extract_facilities.py contains only lowercase ASCII letters, ASCII digits and hyphens. *)
Theorem slugify_chars (sequence : Z) (name : pystr) :
  0 <= sequence ->
  Forall slug_char (slugify sequence name).
Proof.
  intros Hs. destruct (pad3_spec sequence Hs) as [_ Hd].
  assert (Hf : Forall slug_char (asc "facility-" ++ pad3 sequence)).
  { apply Forall_app. split.
    - apply Forall_forall. intros c Hc. apply list_elem_of_In in Hc. vm_compute in Hc.
      unfold slug_char. repeat (destruct Hc as [<-|Hc]; [lia|]). contradiction.
    - eapply Forall_impl; [exact Hd|]. intros c Hc. unfold is_ascii_digit in Hc.
      unfold slug_char. lia. }
  unfold slugify. destruct (is_nil _); [exact Hf|].
  apply Forall_app. split; [exact Hf|]. constructor; [unfold slug_char; lia|].
  apply Forall_map, Forall_forall. intros c Hc. apply list_elem_of_In, strip_chars_incl in Hc.
  pose proof (sub_nonalnum_chars false name) as Hsub.
  rewrite Forall_forall in Hsub. apply list_elem_of_In in Hc.
  destruct (Hsub c Hc) as [Ha| ->]; [|unfold slug_char, ascii_lower; cbn; lia].
  unfold is_ascii_alnum in Ha. unfold slug_char, ascii_lower.
  apply orb_true_iff in Ha as [Ha|Ha]; [apply orb_true_iff in Ha as [Ha|Ha]|];
    apply andb_true_iff in Ha as [H1 H2]; apply Z.leb_le in H1, H2;
    destruct (Z.leb_spec 65 c), (Z.leb_spec c 90); cbn; lia.
Qed.

Section WithWord.
Variable is_word : Z -> bool.
Hypothesis is_word_digit : forall c, 48 <= c <= 57 -> is_word c = true.

(** X12: the slugs [with_slug] attaches to a list of shelters are pairwise distinct, whatever the shelter names, as long as the word-character class includes the ASCII digits. *)
Theorem with_slug_unique (shelters : list Shelter) :
  NoDup (map snd (BuildSite.with_slug is_word shelters)).
Proof.
  apply NoDup_alt. intros i j x Hi Hj. unfold BuildSite.with_slug in Hi, Hj.
  rewrite list_lookup_fmap, list_lookup_imap in Hi, Hj.
  destruct (shelters !! i) as [si|]; [|discriminate].
  destruct (shelters !! j) as [sj|]; [|discriminate].
  injection Hi as Hi. injection Hj as Hj. cbv beta in Hi, Hj. cbn [snd] in Hi, Hj.
  rewrite <- Hj in Hi.
  destruct (slugify_shape_site is_word is_word_digit (sh_village si ++ 45 :: sh_name si)
              (Z.of_nat i) ltac:(lia)) as [t1 [E1 T1]].
  destruct (slugify_shape_site is_word is_word_digit (sh_village sj ++ 45 :: sh_name sj)
              (Z.of_nat j) ltac:(lia)) as [t2 [E2 T2]].
  rewrite E1, E2 in Hi.
  apply digits_app_inv in Hi;
    [|refine (proj2 (py_str_spec _ _)); lia|refine (proj2 (py_str_spec _ _)); lia|exact T1|exact T2].
  apply py_str_inj in Hi; lia.
Qed.

End WithWord.

(** X13: [facility_slug] gives distinct slugs to distinct non-negative indices. *)
Theorem facility_slug_inj (a b : Z) :
  0 <= a -> 0 <= b -> facility_slug a = facility_slug b -> a = b.
Proof.
  intros Ha Hb E. unfold facility_slug in E. apply app_inv_head in E.
  apply (f_equal py_int) in E. rewrite !pad2_spec in E by lia. lia.
Qed.

(** X14: removing the commas from [format_capacity] of an integer gives back its decimal representation, with a leading minus sign for a negative value. *)
Theorem format_capacity_round_trip (value : Z) :
  filter (fun c => c <> 44) (format_capacity (Some value)) =
  if value <? 0 then 45 :: py_str (- value) else py_str value.
Proof.
  cbn [format_capacity]. unfold format_thousands.
  assert (K : forall n, 0 <= n ->
            filter (fun c => c <> 44) (rev (group_rev (rev (py_str n)))) = py_str n).
  { intros n Hn. rewrite filter_rev_Z.
    rewrite (group_rev_no_comma (length (rev (py_str n)))) by lia.
    rewrite filter_rev_Z, rev_involutive. apply py_str_no_comma. exact Hn. }
  destruct (Z.ltb_spec value 0).
  - rewrite filter_cons_True by lia. rewrite K by lia. reflexivity.
  - apply K. lia.
Qed.

(** X15: [_build_unicode_map] raises exactly when some pair of some beginbfchar block has a target code of 0x110000 or more. *)
Theorem build_unicode_map_raises (pdf_text : pystr) :
  _build_unicode_map pdf_text = None <->
  Exists (fun p => 0x110000 <= snd p)
    (concat (map (findall m_pair_upper) (findall m_bfchar pdf_text))).
Proof.
  unfold _build_unicode_map. rewrite fold_blocks_concat, fold_add_glyph_none.
  - split; [intros [H|H]; [discriminate|exact H]|auto].
  - apply Forall_forall. intros p Hp. apply list_elem_of_In, in_concat in Hp as [l [Hl Hp]].
    apply in_map_iff in Hl as [b [<- _]].
    destruct (findall_sound _ _ _ Hp) as [t [n Ht]]. eapply m_pair_upper_nonneg. exact Ht.
Qed.

(** X16: every facility returned by [_parse_facilities] of build_sites.py has an area of 2 or 3 characters followed by 區, a village ending in its only 里, a name without 臺南市, an address starting with 臺南市 and the division 善化分局; their slugs are pairwise distinct. *)
Theorem parse_facilities_build_shape (raw_text : pystr) :
  Forall build_facility_shape (_parse_facilities raw_text) /\
  NoDup (map bf_slug (_parse_facilities raw_text)).
Proof.
  unfold _parse_facilities. destruct (parse_entries_spec 0 (py_split (replace raw_text Shelters.COLUMNS []) SHANHUA)) as [F N].
  split; [|exact N]. eapply Forall_impl; [exact F|]. intros f [H _]. exact H.
Qed.

(** X17: each facility that [finalize_facilities] builds from [assemble_rows] splits the name of its row into district, village and name without losing characters, and its village is empty or ends in its only 里. *)
Theorem finalize_assembled_rows (slugify : pystr -> pystr -> pystr) (sections : list pystr)
    (i : nat) (f : SiteFacility) :
  finalize_facilities slugify (assemble_rows sections) !! i = Some f ->
  exists row, assemble_rows sections !! i = Some row /\
    sf_district f ++ sf_village f ++ sf_name f = concat (name_parts row) /\
    (sf_village f = [] \/ exists v, sf_village f = v ++ [LI] /\ ~ In LI v).
Proof.
  unfold finalize_facilities. rewrite list_lookup_imap.
  destruct (assemble_rows sections !! i) as [row|] eqn:Er; [|discriminate].
  intros [= <-]. exists row. split; [reflexivity|].
  destruct (assemble_rows_aux_spec sections [] None ltac:(constructor) ltac:(discriminate)) as [_ F].
  rewrite Forall_forall in F. apply list_elem_of_lookup_2 in Er.
  destruct (F row Er) as (item & rest & En & Es).
  apply prefixb_spec in Es as [t ->].
  unfold finalize_row. cbn zeta.
  destruct (match match capacity_division row with Some cd => cd | None => [] end with
            | c :: _ => _ | [] => _ end) as [capacity division].
  cbn [sf_district sf_village sf_name]. rewrite En. cbn [concat].
  rewrite <- app_assoc, drop_app_length.
  set (u := t ++ concat rest).
  destruct (find_idx u [LI]) as [k|] eqn:Ek.
  - destruct (find_idx_single _ _ _ Ek) as (Et & Hn & Hl).
    rewrite length_take, Nat.min_l, take_drop by lia.
    split; [reflexivity|right; exists (take k u); split; [exact Et|exact Hn]].
  - cbn. split; [reflexivity|left; reflexivity].
Qed.

Lemma decode_hex_string_length_witness :
  decode_hex_string (asc "00410042") ∅ = Some [0xfffd; 0xfffd] /\
  length [0xfffd; 0xfffd] = ((length (asc "00410042") + 3) / 4)%nat.
Proof.
  assert (E : decode_hex_string (asc "00410042") ∅ = Some [0xfffd; 0xfffd]) by (vm_compute; reflexivity).
  split; [exact E|exact (decode_hex_string_length (asc "00410042") ∅ [0xfffd; 0xfffd] E)].
Defined.

Lemma load_cmap_mapping_lookup_witness :
  exists mapping, _load_cmap_mapping sample_cmap_pdf = Some mapping /\
    (mapping !! 1 = Some 0x43 <->
     exists pre post, findall m_pair_sp sample_cmap_pdf = pre ++ (1, 0x43) :: post /\
                      Forall (fun p => fst p <> 1) post).
Proof.
  eexists. split; [vm_compute; reflexivity|].
  apply (load_cmap_mapping_lookup sample_cmap_pdf sample_cmap_pdf); vm_compute; reflexivity.
Defined.

Lemma build_cmap_lookup_witness :
  build_cmap sample_cmap_streams !! 2 = Some 0x42 /\
  exists before stream after pre post,
    sample_cmap_streams = before ++ stream :: after /\
    Forall (fun s => contains s (asc "beginbfchar") = false \/ findall m_pair_any s = []) before /\
    contains stream (asc "beginbfchar") = true /\
    findall m_pair_any stream = pre ++ (2, 0x42) :: post /\
    Forall (fun p => fst p <> 2) post.
Proof.
  assert (E : build_cmap sample_cmap_streams !! 2 = Some 0x42) by (vm_compute; reflexivity).
  split; [exact E|exact (build_cmap_lookup sample_cmap_streams 2 0x42 E)].
Defined.

Lemma remove_headers_update_date_witness :
  snd (remove_headers_and_footers [asc "x"; UPDATED ++ asc " 113/05/01"]) = Some (asc "113/05/01") /\
  exists before item after,
    [asc "x"; UPDATED ++ asc " 113/05/01"] = before ++ item :: after /\
    existsb (fun key => contains item key) HEADER_KEYS = false /\
    contains item UPDATED = true /\ search_date item = Some (asc "113/05/01") /\
    Forall (fun it => existsb (fun key => contains it key) HEADER_KEYS = false ->
                      contains it UPDATED = true -> search_date it = None) after /\
    date_at (asc "113/05/01") = true /\ length (asc "113/05/01") = 9%nat.
Proof.
  assert (E : snd (remove_headers_and_footers [asc "x"; UPDATED ++ asc " 113/05/01"])
              = Some (asc "113/05/01")) by (vm_compute; reflexivity).
  split; [exact E|exact (remove_headers_update_date _ _ E)].
Defined.

Lemma slugify_chars_witness :
  Forall slug_char (ExtractFacilities.slugify 7 (asc "Fire Station #2")).
Proof.
  apply (slugify_chars 7 (asc "Fire Station #2")). lia.
Defined.

Lemma with_slug_unique_witness :
  NoDup (map snd (BuildSite.with_slug ascii_word
    [mkShelter XINSHI [0x5927; LI] [0x4e2d] [] 10 SHANHUA;
     mkShelter XINSHI [0x5927; LI] [0x4e2d] [] 20 SHANHUA])).
Proof.
  apply (with_slug_unique ascii_word).
  intros c Hc. unfold ascii_word. apply andb_true_intro. split; apply Z.leb_le; lia.
Defined.

Lemma facility_slug_inj_witness : facility_slug 4 = facility_slug 4 /\ 4 = 4.
Proof.
  split; [reflexivity|]. apply (facility_slug_inj 4 4); [lia|lia|reflexivity].
Defined.

Lemma finalize_assembled_rows_witness :
  finalize_facilities (fun text _ => text) (assemble_rows sample_rows_sections) !! 0%nat =
    Some (mkSiteFacility XINSHI [0x5927; LI] [0x4e2d; 120] [] None []
            [0x5927; LI; 45; 0x4e2d; 120]) /\
  exists row, assemble_rows sample_rows_sections !! 0%nat = Some row /\
    XINSHI ++ [0x5927; LI] ++ [0x4e2d; 120] = concat (name_parts row) /\
    ([0x5927; LI] = [] \/ exists v, [0x5927; LI] = v ++ [LI] /\ ~ In LI v).
Proof.
  assert (E : finalize_facilities (fun text _ => text) (assemble_rows sample_rows_sections) !! 0%nat =
    Some (mkSiteFacility XINSHI [0x5927; LI] [0x4e2d; 120] [] None []
            [0x5927; LI; 45; 0x4e2d; 120])) by (vm_compute; reflexivity).
  split; [exact E|exact (finalize_assembled_rows _ _ _ _ E)].
Defined.


End Extras.
